(** * experiments.py: query generators, timed runs and the report loop

    A shallow embedding of [src/experiments.py], the script that times the
    threshold queries TQ1, TQ2 and TQ3 on PostgreSQL.  Python integers are
    [Z], Python strings are [string], dictionaries that are used as maps are
    [gmap]s, and code that talks to the shell, to files or to the terminal
    is written in a state-and-exception monad over an explicit [world]. *)

From Stdlib Require Import ZArith QArith Lia Ascii.
From Stdlib Require Import Sorting.Sorted Sorting.Permutation.
From stdpp Require Import base option list sorting strings pretty gmap.

Set Warnings "-clear-no-such-hyp".

Local Open Scope Z_scope.

(** ** Python strings *)

Module Py.

(** The characters the script writes that have no printable form. *)
Definition nl : string := String (ascii_of_nat 10) EmptyString.
Definition tab : string := String (ascii_of_nat 9) EmptyString.

(** ['%i' % z] and [str(z)] for an integer [z]. *)
Definition fmt_i (z : Z) : string := pretty z.

(** [s.startswith(p)] *)
Fixpoint startswith (s p : string) : bool :=
  match p, s with
  | EmptyString, _ => true
  | String _ _, EmptyString => false
  | String a p', String b s' => if Ascii.eqb a b then startswith s' p' else false
  end.

(** [s.endswith(suf)] *)
Fixpoint endswith (s suf : string) : bool :=
  if String.eqb s suf then true
  else match s with
       | EmptyString => false
       | String _ s' => endswith s' suf
       end.

(** [s.find(sub)] on the suffix of [s] that starts [off] characters in:
    the index of the first occurrence, or -1. *)
Fixpoint find_at (off : Z) (sub s : string) : Z :=
  if startswith s sub then off
  else match s with
       | EmptyString => -1
       | String _ s' => find_at (off + 1) sub s'
       end.

Fixpoint drop (n : nat) (s : string) : string :=
  match n, s with
  | O, _ => s
  | S _, EmptyString => EmptyString
  | S n', String _ s' => drop n' s'
  end.

Fixpoint take (n : nat) (s : string) : string :=
  match n, s with
  | O, _ => EmptyString
  | S _, EmptyString => EmptyString
  | S n', String a s' => String a (take n' s')
  end.

Definition len (s : string) : Z := Z.of_nat (String.length s).

(** [s.find(sub, start)] for [0 <= start]; beyond the end of [s] nothing is
    found, not even the empty string. *)
Definition find (sub s : string) (start : Z) : Z :=
  if len s <? start then -1
  else find_at start sub (drop (Z.to_nat start) s).

(** [sub in s] *)
Definition contains (sub s : string) : bool := 0 <=? find_at 0 sub s.

(** A slice bound as Python normalises it: a negative bound counts from the
    end, and the result is clamped to [0 .. len s]. *)
Definition clamp (s : string) (i : Z) : Z :=
  let i := if i <? 0 then i + len s else i in
  Z.max 0 (Z.min i (len s)).

(** [s[a:b]] *)
Definition slice (s : string) (a b : Z) : string :=
  let a := clamp s a in
  let b := clamp s b in
  take (Z.to_nat (b - a)) (drop (Z.to_nat a) s).

(** [s.replace(a, b)] for one-character [a] and [b]. *)
Fixpoint replace_char (a b : ascii) (s : string) : string :=
  match s with
  | EmptyString => EmptyString
  | String c s' => String (if Ascii.eqb c a then b else c) (replace_char a b s')
  end.

(** [sep.join(items)] *)
Fixpoint join (sep : string) (items : list string) : string :=
  match items with
  | [] => EmptyString
  | [x] => x
  | x :: rest => x +:+ sep +:+ join sep rest
  end.

(** [''.join(items)] *)
Definition concat (items : list string) : string :=
  foldr String.append EmptyString items.

(** [range(a, b)] *)
Definition range (a b : Z) : list Z :=
  map (fun i => a + Z.of_nat i) (seq 0 (Z.to_nat (b - a))).

(** [len(items)] *)
Definition len_list {A} (items : list A) : Z := Z.of_nat (List.length items).

(** A [for] loop that updates one local variable. *)
Definition for_each {A B : Type} (items : list A) (init : B) (body : A -> B -> B) : B :=
  fold_left (fun acc x => body x acc) items init.

End Py.

(** ** Run results and their order *)

(** What one timed run yields: the duration in milliseconds that psql
    reports, or the string ['TIMEOUT'].  A duration is a finite Python float;
    it is kept here as the exact rational it denotes, so that comparisons
    are those of the floats (binary rounding is not modelled). *)
Inductive result :=
  | Time (ms : Q)
  | TIMEOUT.

Definition is_timeout (r : result) : bool :=
  match r with TIMEOUT => true | Time _ => false end.

(** The sort key [lambda x: x if x != 'TIMEOUT' else float('inf')]. *)
Inductive key :=
  | Finite (x : Q)
  | Infinity.

Definition sort_key (x : result) : key :=
  match x with
  | Time ms => Finite ms
  | TIMEOUT => Infinity
  end.

(** [a < b] on keys. *)
Definition key_lt (a b : key) : bool :=
  match a, b with
  | Finite x, Finite y => negb (Qle_bool y x)
  | Finite _, Infinity => true
  | Infinity, _ => false
  end.

(** [list.sort(key=...)]: Python's sort is stable and compares keys with
    [<] only, which determines its result; it is computed here by stable
    insertion.  [insert_sorted x l] puts [x], which came before every element
    of [l] in the original list, in front of the first element whose key is
    not smaller than its own. *)
Fixpoint insert_sorted (x : result) (l : list result) : list result :=
  match l with
  | [] => [x]
  | y :: l' =>
      if key_lt (sort_key y) (sort_key x) then y :: insert_sorted x l'
      else x :: y :: l'
  end.

Definition sort_results (results : list result) : list result :=
  foldr insert_sorted [] results.

(** ** The process and its environment *)

Inductive exn :=
  | KeyError (key : string)
  | TypeError (what : string)
  | ValueError (what : string)
  | IndexError (what : string).

(** A value written to a report cell. *)
Inductive cell :=
  | CInt (z : Z)
  | CStr (s : string)
  | CBool (b : bool)
  | CLinks (l : list string)
  | CResult (r : result).

(** What the process does that can be seen from outside, apart from the
    text files it writes. *)
Inductive event :=
  | Shell (command output : string)        (* os.popen(command).read() *)
  | Stdout (text : string)                 (* print, with its end *)
  | StdoutResult (fmt : string) (r : result) (ending : string)
                                           (* print(fmt % r, end=ending) *)
  | StdoutFlush                            (* sys.stdout.flush() *)
  | CsvHeader (file : string) (fieldnames : list string)
  | CsvRow (file : string) (row : list (option cell))
  | FileFlush (file : string).

Record world := World {
  w_shell : list string;             (* what the commands still to run will print *)
  w_graphs : list (list (Z * Z));    (* the random graphs still to be drawn *)
  w_now : string;                    (* the time of day, as strftime prints it *)
  w_files : gmap string string;      (* the text files written so far *)
  w_trace : list event;              (* the events so far, oldest first *)
}.

Inductive outcome (A : Type) :=
  | Done (a : A)
  | Raised (e : exn)             (* an uncaught exception *)
  | Exited (status : Z).         (* exit(status) *)
Arguments Done {A} a.
Arguments Raised {A} e.
Arguments Exited {A} status.

Definition M (A : Type) : Type := world -> outcome A * world.

Definition ret {A} (a : A) : M A := fun w => (Done a, w).

Definition bind {A B} (c : M A) (k : A -> M B) : M B := fun w =>
  match c w with
  | (Done a, w') => k a w'
  | (Raised e, w') => (Raised e, w')
  | (Exited n, w') => (Exited n, w')
  end.

Notation "'let*' x := c 'in' k" := (bind c (fun x => k))
  (at level 10, x pattern, c at level 100, k at level 200).
Notation "c ;; k" := (bind c (fun _ => k))
  (at level 100, k at level 200, right associativity).

Definition raise {A} (e : exn) : M A := fun w => (Raised e, w).
Definition exit {A} (status : Z) : M A := fun w => (Exited status, w).

(** A pure computation that may raise, run inside the process. *)
Definition lift {A} (r : exn + A) : M A :=
  match r with
  | inl e => raise e
  | inr a => ret a
  end.

Definition when (b : bool) (c : M unit) : M unit := if b then c else ret tt.

Definition add_events (w : world) (new : list event) : world :=
  World (w_shell w) (w_graphs w) (w_now w) (w_files w) (w_trace w ++ new).

Definition emit (e : event) : M unit := fun w => (Done tt, add_events w [e]).

(** The shell commands in a trace, each with what it printed, in order. *)
Definition shell_log (trace : list event) : list (string * string) :=
  flat_map (fun e => match e with
                     | Shell command output => [(command, output)]
                     | _ => []
                     end) trace.

Definition commands (trace : list event) : list string := map fst (shell_log trace).

(** [print(text)] and [print(text, end=ending)] *)
Definition print (text : string) : M unit := emit (Stdout (text +:+ Py.nl)).
Definition print_end (text ending : string) : M unit := emit (Stdout (text +:+ ending)).
Definition flush_stdout : M unit := emit StdoutFlush.

(** [open(file, 'w')] truncates; [write] appends to what is there. *)
Definition open_w (file : string) : M unit := fun w =>
  (Done tt, World (w_shell w) (w_graphs w) (w_now w)
                  (<[file := EmptyString]> (w_files w)) (w_trace w)).

Definition write (file text : string) : M unit := fun w =>
  (Done tt, World (w_shell w) (w_graphs w) (w_now w)
                  (<[file := default EmptyString (w_files w !! file) +:+ text]> (w_files w))
                  (w_trace w)).

(** [os.popen(command).read()]: the command runs and what it prints comes
    back; the world says what that is. *)
Definition popen_read (command : string) : M string := fun w =>
  let output := hd EmptyString (w_shell w) in
  (Done output,
   World (tl (w_shell w)) (w_graphs w) (w_now w) (w_files w)
         (w_trace w ++ [Shell command output])).

(** [networkx.barabasi_albert_graph(n, m0).edges]: a random graph, which
    the world supplies. *)
Definition barabasi_albert_graph (n m0 : Z) : M (list (Z * Z)) := fun w =>
  (Done (hd [] (w_graphs w)),
   World (w_shell w) (tl (w_graphs w)) (w_now w) (w_files w) (w_trace w)).

(** [for x in items: body], where [body] updates the local variable it is
    given. *)
Fixpoint fold_M {A S} (items : list A) (init : S) (body : A -> S -> M S) : M S :=
  match items with
  | [] => ret init
  | x :: rest => let* s := body x init in fold_M rest s body
  end.

Definition for_M {A} (items : list A) (body : A -> M unit) : M unit :=
  fold_M items tt (fun x _ => body x).

(** ** Configuration *)

Definition default_runs : Z := 3.
Definition default_indexed : bool := false.
Definition default_timeout : Z := 1800000.
Definition default_hard_timeout : bool := true.

Definition load_script_file : string := "load-script.sql".
Definition query_script_file : string := "query-script.sql".
Definition tmp_dir : string := "/tmp/".
Definition results_dir : string := "results".
Definition r_file : string := tmp_dir +:+ "r.csv".
Definition db_name : string := "threshold".
Definition pg_port : Z := 5433.
Definition movie_link_file : string := "/home/user/movie_link.csv".

(** ** Data sets *)

(** A link type of the IMDb data: an identifier, or ['all']. *)
Inductive link :=
  | LinkAll
  | LinkId (id : Z).

Definition link_eqb (a b : link) : bool :=
  match a, b with
  | LinkAll, LinkAll => true
  | LinkId x, LinkId y => x =? y
  | _, _ => false
  end.

Definition str_link (t : link) : string :=
  match t with
  | LinkAll => "all"
  | LinkId id => Py.fmt_i id
  end.

(** The data dictionary, with the keys the script reads and the types its
    header comment gives them; [None] is a key that is absent. *)
Record Data := mkData {
  d_kind : string;
  d_n : option Z;
  d_m0 : option Z;
  d_link_types : option (list link);
  d_m : option Z;
  d_indexed : option bool;
  d_runs : option Z;
  d_timeout : option Z;
}.

Definition set_n (data : Data) (n : Z) : Data :=
  mkData (d_kind data) (Some n) (d_m0 data) (d_link_types data) (d_m data)
       (d_indexed data) (d_runs data) (d_timeout data).

Definition set_m (data : Data) (m : Z) : Data :=
  mkData (d_kind data) (d_n data) (d_m0 data) (d_link_types data) (Some m)
       (d_indexed data) (d_runs data) (d_timeout data).

(** [data[key]] for a key that may be absent. *)
Definition required {A} (key : string) (field : option A) : exn + A :=
  match field with
  | Some a => inr a
  | None => inl (KeyError key)
  end.

(** [data.get(label)] as a report cell. *)
Definition data_get (data : Data) (label : string) : option cell :=
  if String.eqb label "kind" then Some (CStr (d_kind data))
  else if String.eqb label "n" then CInt <$> d_n data
  else if String.eqb label "m0" then CInt <$> d_m0 data
  else if String.eqb label "link_types"
       then (fun l => CLinks (map str_link l)) <$> d_link_types data
  else if String.eqb label "m" then CInt <$> d_m data
  else if String.eqb label "indexed" then CBool <$> d_indexed data
  else if String.eqb label "runs" then CInt <$> d_runs data
  else if String.eqb label "timeout" then CInt <$> d_timeout data
  else None.

(** The two kinds of Python object that [imdb_size] could be, and what
    calling and subscripting do to each. *)
Inductive pyobj :=
  | PyDict (entries : list (link * Z))
  | PyFunction (f : link -> exn + Z).

Definition call (o : pyobj) (arg : link) : exn + Z :=
  match o with
  | PyFunction f => f arg
  | PyDict _ => inl (TypeError "'dict' object is not callable")
  end.

Fixpoint assoc (entries : list (link * Z)) (key : link) : option Z :=
  match entries with
  | [] => None
  | (k, v) :: rest => if link_eqb k key then Some v else assoc rest key
  end.

Definition getitem (o : pyobj) (key : link) : exn + Z :=
  match o with
  | PyDict entries =>
      match assoc entries key with
      | Some v => inr v
      | None => inl (KeyError (str_link key))
      end
  | PyFunction _ => inl (TypeError "'function' object is not subscriptable")
  end.

(** sizes (edge count) of link groups in imdb *)
Definition imdb_size : pyobj :=
  PyDict [(LinkAll, 29997); (LinkId 5, 8593); (LinkId 6, 5503); (LinkId 9, 5186);
          (LinkId 13, 3341); (LinkId 10, 2223); (LinkId 1, 1158); (LinkId 2, 1157);
          (LinkId 8, 781); (LinkId 7, 625); (LinkId 16, 278); (LinkId 12, 247);
          (LinkId 15, 211); (LinkId 3, 207); (LinkId 11, 204); (LinkId 4, 199);
          (LinkId 17, 84)].

(** [[f(t) for t in items]]: the first exception ends the comprehension. *)
Fixpoint comprehension {A B} (f : A -> exn + B) (items : list A) : exn + list B :=
  match items with
  | [] => inr []
  | t :: rest =>
      match f t with
      | inl e => inl e
      | inr b =>
          match comprehension f rest with
          | inl e => inl e
          | inr bs => inr (b :: bs)
          end
      end
  end.

(** [if link_types:] *)
Definition links_truthy (link_types : option (list link)) : bool :=
  match link_types with
  | Some (_ :: _) => true
  | _ => false
  end.

Definition calc_imdb_size (link_types : option (list link)) : exn + Z :=
  if links_truthy link_types then
    match comprehension (call imdb_size) (default [] link_types) with
    | inl e => inl e
    | inr sizes => inr (foldr Z.add 0 sizes)
    end
  else getitem imdb_size LinkAll.

Definition descr_link_types (link_types : option (list link)) : string :=
  if links_truthy link_types then
    "{" +:+ Py.join "," (map str_link (default [] link_types)) +:+ "}"
  else "all".

Definition bool_truthy (b : option bool) : bool := default false b.

(** Returns simple description of generated data *)
Definition descr_data (data : Data) : M string :=
  let kind := d_kind data in
  let* descr :=
    if String.eqb kind "imdb" then
      let descr := "imdb data" in
      let link_types := d_link_types data in
      let descr := descr +:+ " with link types " +:+ descr_link_types link_types in
      let* size := lift (calc_imdb_size link_types) in
      ret (descr +:+ " size " +:+ Py.fmt_i size)
    else if String.eqb kind "ba" then
      let* n := lift (required "n" (d_n data)) in
      let* m0 := lift (required "m0" (d_m0 data)) in
      ret ("barabasi albert for n=" +:+ Py.fmt_i n +:+ " and m0=" +:+ Py.fmt_i m0)
    else if String.eqb kind "full" then
      let* n := lift (required "n" (d_n data)) in
      ret ("full graph with n=" +:+ Py.fmt_i n)
    else
      print ("Error: unsupported data kind " +:+ kind);;
      exit 1 in
  if bool_truthy (d_indexed data) then ret (descr +:+ " indexed")
  else ret (descr +:+ " no index").

Definition write_indexes (script : string) : M unit :=
  write script "CREATE INDEX ind1 ON R(A);";;
  write script "CREATE INDEX ind2 ON R(B);";;
  write script "CLUSTER R USING ind1;".

(** Prepares IMDB data *)
Definition prepare_imdb_data (data : Data) : M Data :=
  let link_types := d_link_types data in
  let* size := lift (calc_imdb_size link_types) in
  let data := set_n data size in
  let script := load_script_file in
  open_w script;;
  write script ("--DROP TABLE IF EXISTS MOVIE_LINK;" +:+ Py.nl);;
  write script ("CREATE TABLE MOVIE_LINK(ID INT, MOVIE_ID INT, LINKED_MOVIE_ID INT, "
                +:+ "LINK_TYPE_ID INT);" +:+ Py.nl);;
  write script ("\copy MOVIE_LINK FROM '" +:+ movie_link_file +:+ "' CSV" +:+ Py.nl);;
  write script ("DROP TABLE IF EXISTS R;" +:+ Py.nl);;
  write script ("CREATE TABLE R(A INT, B INT);" +:+ Py.nl);;
  write script ("INSERT INTO R" +:+ Py.nl);;
  write script "SELECT MOVIE_ID, LINKED_MOVIE_ID FROM MOVIE_LINK";;
  when (links_truthy link_types)
    (write script (Py.nl +:+ "WHERE LINK_TYPE_ID IN " +:+ "("
                   +:+ Py.join "," (map str_link (default [] link_types)) +:+ ")"));;
  write script (";" +:+ Py.nl);;
  write script ("DROP TABLE MOVIE_LINK;" +:+ Py.nl);;
  when (bool_truthy (d_indexed data)) (write_indexes script);;
  write script ("ANALYZE;" +:+ Py.nl);;
  print "done";;
  flush_stdout;;
  ret data.

Definition write_copy_script (script : string) : M unit :=
  write script ("DROP TABLE IF EXISTS R;" +:+ Py.nl);;
  write script ("CREATE TABLE R(A INT, B INT);" +:+ Py.nl);;
  write script ("COPY R FROM '" +:+ r_file +:+ "';" +:+ Py.nl).

(** Generates data based on Barabasi-Albert model (the networkx package is
    taken to be installed). *)
Definition generate_barabasi_albert_data (data : Data) : M Data :=
  let* n := lift (required "n" (d_n data)) in
  let* m0 := lift (required "m0" (d_m0 data)) in
  flush_stdout;;
  let script := load_script_file in
  let r := r_file in
  open_w script;;
  open_w r;;
  write_copy_script script;;
  let* indexed := lift (required "indexed" (d_indexed data)) in
  when indexed (write_indexes script);;
  write script ("ANALYZE;" +:+ Py.nl);;
  let* edges := barabasi_albert_graph n m0 in
  let* m := fold_M edges 0 (fun e m =>
    write r (Py.fmt_i (fst e) +:+ Py.tab +:+ Py.fmt_i (snd e) +:+ Py.nl);;
    ret (m + 1)) in
  let data := set_m data m in
  print "done";;
  flush_stdout;;
  ret data.

Definition generate_full_graph (data : Data) : M Data :=
  let* n := lift (required "n" (d_n data)) in
  flush_stdout;;
  let script := load_script_file in
  let r := r_file in
  open_w script;;
  open_w r;;
  write_copy_script script;;
  when (bool_truthy (d_indexed data)) (write_indexes script);;
  write script ("ANALYZE;" +:+ Py.nl);;
  let* m := fold_M (Py.range 0 n) 0 (fun i m =>
    fold_M (Py.range 0 n) m (fun j m =>
      let m := m + 1 in
      write r (Py.fmt_i i +:+ Py.tab +:+ Py.fmt_i j +:+ Py.nl);;
      ret m)) in
  let data := set_m data m in
  print "done";;
  flush_stdout;;
  ret data.

(** Prepares a script for loading data into PostgreSQL database; the
    procedures for each kind of data also set [data['m']] (and the updated
    dictionary is returned). *)
Definition prepare_data (data : Data) : M Data :=
  let kind := d_kind data in
  let* descr := descr_data data in
  print ("Preparing " +:+ descr);;
  if String.eqb kind "imdb" then prepare_imdb_data data
  else if String.eqb kind "ba" then generate_barabasi_albert_data data
  else if String.eqb kind "full" then generate_full_graph data
  else
    print ("Error: Unsupported data kind " +:+ kind);;
    exit 1.

(** ** Running PostgreSQL commands *)

Definition PSQL_TIMEOUT_MSG : string :=
  "ERROR:  canceling statement due to statement timeout".

Record pg_params := PgParams {
  ignore_errors : bool;
  verbose : bool;
  msg_on_error : option string;
}.

Definition pg_defaults : pg_params := PgParams false false None.

Definition str_truthy (s : option string) : bool :=
  match s with
  | Some (String _ _) => true
  | _ => false
  end.

(** Runs a shell command such as psql, createdb or dropdb; potentially
    breaks on FATAL and ERROR. *)
Definition postgres (command : string) (params : pg_params) : M string :=
  let* output := popen_read (command +:+ " 2>&1") in
  when (negb (Py.contains PSQL_TIMEOUT_MSG output)
        && (Py.contains "ERROR:" output || Py.contains "FATAL:" output))
    (when (negb (ignore_errors params))
       (when (str_truthy (msg_on_error params))
          (print (default EmptyString (msg_on_error params)));;
        print output;;
        exit 1));;
  when (verbose params || Py.contains "WARNING:" output) (print output);;
  ret output.

(** Loads data into a database; it first forcibly deletes the database. *)
Definition load_data (quiet : bool) : M unit :=
  when (negb quiet) (print_end "loading data " "... ");;
  flush_stdout;;
  postgres ("dropdb -p " +:+ Py.fmt_i pg_port +:+ " --force --if-exists " +:+ db_name)
           (PgParams false false (Some "Error while attempting to delete database"));;
  postgres ("createdb -p " +:+ Py.fmt_i pg_port +:+ " " +:+ db_name)
           (PgParams false false (Some "Error while attempting to create database"));;
  postgres ("psql -p " +:+ Py.fmt_i pg_port +:+ " -q -f " +:+ load_script_file
            +:+ " " +:+ db_name)
           (PgParams false false (Some "Error while data loading occurred"));;
  when (negb quiet) (print "done");;
  flush_stdout.

(** ** The query generators

    Each takes the path length (number of joins plus one) and the threshold
    and builds the SQL text by appending to the local variable [query]. *)

Section Generators.
Import Py.

(** The [FROM] and [WHERE] loops shared, textually, by the three naive
    generators. *)
Definition from_loop (length : Z) (query : string) : string :=
  for_each (range 0 length) query (fun i query =>
    let query := query +:+ "R AS R" +:+ fmt_i i in
    if i <? length - 1 then query +:+ ", " else query).

Definition where_loop (length : Z) (query : string) : string :=
  for_each (range 0 (length - 1)) query (fun i query =>
    let query := query +:+ "R" +:+ fmt_i i +:+ ".B = R" +:+ fmt_i (i + 1) +:+ ".A" in
    if i <? length - 1 - 1 then query +:+ " AND " else query).

(** TQ1 naive *)
Definition prep_path_naiv_query (length threshold : Z) : string :=
  let query := "SELECT DISTINCT R0.A, R" +:+ fmt_i (length - 1) +:+ ".B" +:+ nl in
  let query := query +:+ "FROM " in
  let query := from_loop length query in
  let query := query +:+ nl in
  let query := query +:+ "WHERE " in
  let query := where_loop length query in
  let query := query +:+ nl in
  let query := query +:+ "LIMIT " +:+ fmt_i threshold +:+ ";" in
  query.

(** TQ2 naive *)
Definition prep_neig_naiv_query (length threshold : Z) : string :=
  let query := "SELECT R0.A" +:+ nl in
  let query := query +:+ "FROM " in
  let query := from_loop length query in
  let query := query +:+ nl in
  let query := query +:+ "WHERE " in
  let query := where_loop length query in
  let query := query +:+ nl in
  let query := query +:+ "GROUP BY R0.A" +:+ nl in
  let query := query +:+ "HAVING COUNT(DISTINCT R" +:+ fmt_i (length - 1)
                     +:+ ".B) >= " +:+ fmt_i threshold +:+ ";" in
  query.

(** TQ3 naive *)
Definition prep_conn_naiv_query (length threshold : Z) : string :=
  let query := "SELECT SUB.X0, SUB.X" +:+ fmt_i length +:+ nl in
  let query := query +:+ "FROM (" +:+ nl in
  let query := query +:+ "   SELECT DISTINCT R0.A AS X0" in
  let query := for_each (range 0 length) query (fun i query =>
    query +:+ ", R" +:+ fmt_i i +:+ ".B AS X" +:+ fmt_i (i + 1)) in
  let query := query +:+ nl in
  let query := query +:+ "   FROM " in
  let query := from_loop length query in
  let query := query +:+ nl in
  let query := query +:+ "   WHERE " in
  let query := where_loop length query in
  let query := query +:+ nl in
  let query := query +:+ ") AS SUB " +:+ nl in
  let query := query +:+ "GROUP BY SUB.X0, SUB.X" +:+ fmt_i length +:+ nl in
  let query := query +:+ "HAVING COUNT(*) >= " +:+ fmt_i threshold +:+ ";" in
  query.

(** TQ1 windowed, joining forward; slower on IMDb *)
Definition prep_path_wind_query_forward (length threshold : Z) : string :=
  let query := "WITH" +:+ nl in
  let query := for_each (range 1 (length + 1)) query (fun j query =>
    let query := query +:+ "J" +:+ fmt_i j +:+ " AS " in
    let query :=
      if j =? 1 then
        query +:+ "(SELECT DISTINCT A AS X0, B AS X" +:+ fmt_i j +:+ " FROM R)," +:+ nl
      else
        let query := query +:+ "(SELECT DISTINCT S" +:+ fmt_i (j - 1) +:+ ".X0, R.B AS X"
                           +:+ fmt_i j +:+ nl in
        let query := query +:+ "       FROM S" +:+ fmt_i (j - 1) +:+ ", R" +:+ nl in
        query +:+ "       WHERE S" +:+ fmt_i (j - 1) +:+ ".X" +:+ fmt_i (j - 1)
              +:+ " = R.A)," +:+ nl in
    let query := query +:+ "W" +:+ fmt_i j +:+ " AS " in
    let query := query +:+ "(SELECT X0, X" +:+ fmt_i j
                       +:+ ", ROW_NUMBER() OVER (PARTITION BY X" +:+ fmt_i j
                       +:+ ") AS RK FROM J" +:+ fmt_i j +:+ ")," +:+ nl in
    let query := query +:+ "S" +:+ fmt_i j +:+ " AS " in
    let query := query +:+ "(SELECT X0, X" +:+ fmt_i j +:+ " FROM W" +:+ fmt_i j
                       +:+ " WHERE RK <= " +:+ fmt_i threshold +:+ ")" in
    let query := if j <? length then query +:+ "," else query in
    query +:+ nl) in
  let query := query +:+ "SELECT X0, X" +:+ fmt_i length +:+ " FROM S" +:+ fmt_i length
                     +:+ " LIMIT " +:+ fmt_i threshold +:+ ";" in
  query.

(** TQ1 windowed, joining backward; faster on IMDb.  USE THIS ONE *)
Definition prep_path_wind_query_backward (length threshold : Z) : string :=
  let query := "WITH" +:+ nl in
  let query := for_each (reverse (range 1 (length + 1))) query (fun j query =>
    let query := query +:+ "J" +:+ fmt_i j +:+ " AS " in
    let query :=
      if j =? length then
        query +:+ "(SELECT DISTINCT A AS X" +:+ fmt_i (j - 1) +:+ ", B AS X" +:+ fmt_i j
              +:+ " FROM R)," +:+ nl
      else
        let query := query +:+ "(SELECT DISTINCT R.A AS X" +:+ fmt_i (j - 1) +:+ ", X"
                           +:+ fmt_i length +:+ " " +:+ nl in
        let query := query +:+ "       FROM R, S" +:+ fmt_i (j + 1) +:+ " " +:+ nl in
        query +:+ "       WHERE R.B = S" +:+ fmt_i (j + 1) +:+ ".X" +:+ fmt_i j
              +:+ ")," +:+ nl in
    let query := query +:+ "W" +:+ fmt_i j +:+ " AS " in
    let query := query +:+ "(SELECT X" +:+ fmt_i (j - 1) +:+ ", X" +:+ fmt_i length
                       +:+ ", ROW_NUMBER() OVER (PARTITION BY X" +:+ fmt_i (j - 1)
                       +:+ ") AS RK FROM J" +:+ fmt_i j +:+ ")," +:+ nl in
    let query := query +:+ "S" +:+ fmt_i j +:+ " AS " in
    let query := query +:+ "(SELECT X" +:+ fmt_i (j - 1) +:+ ", X" +:+ fmt_i length
                       +:+ " FROM W" +:+ fmt_i j +:+ " WHERE RK <= " +:+ fmt_i threshold
                       +:+ ")" in
    let query := if 1 <? j then query +:+ "," else query in
    query +:+ nl) in
  let query := query +:+ "SELECT X0, X" +:+ fmt_i length +:+ " FROM S1 LIMIT "
                     +:+ fmt_i threshold +:+ ";" in
  query.

(** TQ2 windowed, joining forward, slower on IMDb; INCORRECT !!! *)
Definition prep_neig_wind_query_forward (length threshold : Z) : string :=
  let query := "WITH" +:+ nl in
  let query := for_each (range 1 (length + 1)) query (fun j query =>
    let query := query +:+ "J" +:+ fmt_i j +:+ " AS " in
    let query :=
      if j =? 1 then
        query +:+ "(SELECT DISTINCT A AS X0, B AS X" +:+ fmt_i j +:+ " FROM R)," +:+ nl
      else
        let query := query +:+ "(SELECT DISTINCT S" +:+ fmt_i (j - 1) +:+ ".X0, R.B AS X"
                           +:+ fmt_i j +:+ nl in
        let query := query +:+ "       FROM S" +:+ fmt_i (j - 1) +:+ ", R" +:+ nl in
        query +:+ "       WHERE S" +:+ fmt_i (j - 1) +:+ ".X" +:+ fmt_i (j - 1)
              +:+ " = R.A)," +:+ nl in
    let query := query +:+ "W" +:+ fmt_i j +:+ " AS " in
    let query := query +:+ "(SELECT X0, X" +:+ fmt_i j
                       +:+ ", ROW_NUMBER() OVER (PARTITION BY X" +:+ fmt_i j
                       +:+ ") AS RK FROM J" +:+ fmt_i j +:+ ")," +:+ nl in
    let query := query +:+ "S" +:+ fmt_i j +:+ " AS " in
    query +:+ "(SELECT X0, X" +:+ fmt_i j +:+ " FROM W" +:+ fmt_i j
          +:+ " WHERE RK <= " +:+ fmt_i threshold +:+ ")," +:+ nl) in
  let query := query +:+ "C AS (SELECT X0, COUNT(*) CNT FROM S" +:+ fmt_i length
                     +:+ " GROUP BY X0)," +:+ nl in
  let query := query +:+ "S AS (SELECT X0 FROM C WHERE CNT >= " +:+ fmt_i threshold
                     +:+ ")" +:+ nl in
  let query := query +:+ "SELECT X0 FROM S;" in
  query.

(** TQ2 windowed, joining backward, faster on IMDb; USE THIS ONE *)
Definition prep_neig_wind_query_backward (length threshold : Z) : string :=
  let query := "WITH" +:+ nl in
  let query := for_each (reverse (range 1 (length + 1))) query (fun j query =>
    let query := query +:+ "J" +:+ fmt_i j +:+ " AS " in
    let query :=
      if j =? length then
        query +:+ "(SELECT DISTINCT A AS X" +:+ fmt_i (j - 1) +:+ ", B AS X" +:+ fmt_i j
              +:+ " FROM R)," +:+ nl
      else
        let query := query +:+ "(SELECT DISTINCT R.A AS X" +:+ fmt_i (j - 1) +:+ ", X"
                           +:+ fmt_i length +:+ " " +:+ nl in
        let query := query +:+ "       FROM R, S" +:+ fmt_i (j + 1) +:+ " " +:+ nl in
        query +:+ "       WHERE R.B = S" +:+ fmt_i (j + 1) +:+ ".X" +:+ fmt_i j
              +:+ ")," +:+ nl in
    let query := query +:+ "W" +:+ fmt_i j +:+ " AS " in
    let query := query +:+ "(SELECT X" +:+ fmt_i (j - 1) +:+ ", X" +:+ fmt_i length
                       +:+ ", ROW_NUMBER() OVER (PARTITION BY X" +:+ fmt_i (j - 1)
                       +:+ ") AS RK FROM J" +:+ fmt_i j +:+ ")," +:+ nl in
    let query := query +:+ "S" +:+ fmt_i j +:+ " AS " in
    query +:+ "(SELECT X" +:+ fmt_i (j - 1) +:+ ", X" +:+ fmt_i length
          +:+ " FROM W" +:+ fmt_i j +:+ " WHERE RK <= " +:+ fmt_i threshold
          +:+ ")," +:+ nl) in
  let query := query +:+ "C AS (SELECT X0, COUNT(*) CNT FROM S1 GROUP BY X0)," +:+ nl in
  let query := query +:+ "S AS (SELECT X0 FROM C WHERE CNT >= " +:+ fmt_i threshold
                     +:+ ")" +:+ nl in
  let query := query +:+ "SELECT X0 FROM S;" in
  query.

(** The stage loop of the two TQ3 windowed generators, which differ in the
    column of [R] that is joined ([join_col]) and the one that is kept
    ([new_col]). *)
Definition conn_wind_loop (new_col join_col : string) (length threshold : Z)
    (query : string) : string :=
  for_each (range 2 (length + 1)) query (fun j query =>
    let query := query +:+ "J" +:+ fmt_i j +:+ " AS " in
    let query := query +:+ "(SELECT DISTINCT " in
    let query := query +:+ concat (map (fun i =>
                   "S" +:+ fmt_i (j - 1) +:+ ".X" +:+ fmt_i i +:+ ", ") (range 0 j)) in
    let query := query +:+ "R." +:+ new_col +:+ " AS X" +:+ fmt_i j +:+ " " in
    let query := query +:+ nl in
    let query := query +:+ "       FROM S" +:+ fmt_i (j - 1) +:+ ", R" +:+ nl in
    let query := query +:+ "       WHERE S" +:+ fmt_i (j - 1) +:+ ".X" +:+ fmt_i (j - 1)
                       +:+ " = R." +:+ join_col +:+ ")," +:+ nl in
    let query := query +:+ "W" +:+ fmt_i j +:+ " AS " in
    let query := query +:+ "(SELECT " in
    let query := query +:+ concat (map (fun i => "X" +:+ fmt_i i +:+ ", ")
                                       (range 0 (j + 1))) in
    let query := query +:+ "ROW_NUMBER() OVER (PARTITION BY X0, X" +:+ fmt_i j
                       +:+ ") AS RK " in
    let query := query +:+ "FROM J" +:+ fmt_i j +:+ ")," +:+ nl in
    let query := query +:+ "S" +:+ fmt_i j +:+ " AS " in
    let query := query +:+ "(SELECT " in
    let query := query +:+ join ", " (map (fun i => "X" +:+ fmt_i i) (range 0 (j + 1)))
                       +:+ " " in
    let query := query +:+ "FROM W" +:+ fmt_i j +:+ " WHERE RK <= " +:+ fmt_i threshold
                       +:+ ")" in
    let query := if j <? length then query +:+ "," else query in
    query +:+ nl).

(** TQ3 windowed, joining forward, faster on IMDb; USE THIS ONE *)
Definition prep_conn_wind_query_forward (length threshold : Z) : string :=
  let query := "WITH" +:+ nl in
  let query := query +:+ "S1 AS " in
  let query := query +:+ "(SELECT DISTINCT A AS X0, B AS X1 FROM R)," +:+ nl in
  let query := conn_wind_loop "B" "A" length threshold query in
  let query := query +:+ "SELECT X0, X" +:+ fmt_i length +:+ " FROM S" +:+ fmt_i length
                     +:+ " GROUP BY X0, X" +:+ fmt_i length +:+ " HAVING COUNT(*)>="
                     +:+ fmt_i threshold in
  query.

(** TQ3 windowed, joining backward, slower on IMDb *)
Definition prep_conn_wind_query_backward (length threshold : Z) : string :=
  let query := "WITH" +:+ nl in
  let query := query +:+ "S1 AS " in
  let query := query +:+ "(SELECT DISTINCT B AS X0, A AS X1 FROM R)," +:+ nl in
  let query := conn_wind_loop "A" "B" length threshold query in
  let query := query +:+ "SELECT X" +:+ fmt_i length +:+ ", X0 FROM S" +:+ fmt_i length
                     +:+ " GROUP BY X0, X" +:+ fmt_i length +:+ " HAVING COUNT(*)>="
                     +:+ fmt_i threshold in
  query.

(** The generator chosen for each query class and method; a missing key is
    Python's [KeyError]. *)
Definition query_constructors : gmap string (gmap string (Z -> Z -> string)) :=
  {[ "TQ1" := {[ "naive" := prep_path_naiv_query;
                 "windowed" := prep_path_wind_query_backward ]};
     "TQ2" := {[ "naive" := prep_neig_naiv_query;
                 "windowed" := prep_neig_wind_query_backward ]};
     "TQ3" := {[ "naive" := prep_conn_naiv_query;
                 "windowed" := prep_conn_wind_query_forward ]} ]}.

(** ** Query descriptors *)

Record Query := mkQuery {
  q_kind : string;        (* 'TQ1', 'TQ2' or 'TQ3' *)
  q_method : string;      (* 'naive' or 'windowed' *)
  q_k : Z;                (* number of joins *)
  q_threshold : Z;
}.

(** A succinct description of the query, used as a column name in the CSV
    report. *)
Definition query_descr (query : Query) : string :=
  let kind := q_kind query in
  let method := q_method query in
  let k := q_k query in
  let threshold := q_threshold query in
  kind +:+ "-" +:+ slice method 0 4 +:+ "-K" +:+ fmt_i k.

End Generators.

(** ** One query: script, timed run, median *)

Definition truthy_Z (z : option Z) : bool :=
  match z with
  | Some z => negb (z =? 0)
  | None => false
  end.

(** [d[key]] on a dictionary with string keys. *)
Definition subscript {A} (d : gmap string A) (key : string) : exn + A :=
  match d !! key with
  | Some a => inr a
  | None => inl (KeyError key)
  end.

(** [query_constructors[kind][method](length, threshold)], the call in
    [prepare_query] that produces the SQL text. *)
Definition construct_query (kind method : string) (length threshold : Z) : M string :=
  let* by_method := lift (subscript query_constructors kind) in
  let* constructor := lift (subscript by_method method) in
  ret (constructor length threshold).

(** Prepares a query script file with the appropriate query formulation and
    timing commands. *)
Definition prepare_query (query : Query) (timeout : option Z) : M unit :=
  let kind := q_kind query in
  let method := q_method query in
  let length := q_k query + 1 in
  let threshold := q_threshold query in
  let* query_str := construct_query kind method length threshold in
  let script := query_script_file in
  open_w script;;
  write script ("SET max_parallel_workers_per_gather = 0;" +:+ Py.nl);;
  when (truthy_Z timeout)
    (write script ("SET statement_timeout = " +:+ Py.fmt_i (default 0 timeout) +:+ ";"
                   +:+ Py.nl));;
  write script ("\timing" +:+ Py.nl);;
  write script query_str.

(** [float(s)] for the decimal notation: optional blanks around, an optional
    sign, digits with an optional point, an optional exponent.  The other
    spellings Python accepts (inf, nan, digit separators) do not denote a
    duration read from psql and are rejected like any other text, with
    [None] for the [ValueError]. *)
Module Float.

Definition is_space (c : ascii) : bool :=
  let n := nat_of_ascii c in
  ((9 <=? n) && (n <=? 13))%nat || (n =? 32)%nat.

Fixpoint lstrip (s : string) : string :=
  match s with
  | String c s' => if is_space c then lstrip s' else s
  | EmptyString => s
  end.

Fixpoint all_space (s : string) : bool :=
  match s with
  | String c s' => is_space c && all_space s'
  | EmptyString => true
  end.

Definition digit (c : ascii) : option Z :=
  let n := Z.of_nat (nat_of_ascii c) in
  if (48 <=? n) && (n <=? 57) then Some (n - 48) else None.

(** Reads a run of digits: its value after [acc], how many there were after
    [count], and the rest of the text. *)
Fixpoint digits (s : string) (acc : Z) (count : Z) : Z * Z * string :=
  match s with
  | String c s' =>
      match digit c with
      | Some d => digits s' (10 * acc + d) (count + 1)
      | None => (acc, count, s)
      end
  | EmptyString => (acc, count, s)
  end.

Definition sign (s : string) : Z * string :=
  match s with
  | String "+" s' => (1, s')
  | String "-" s' => (-1, s')
  | _ => (1, s)
  end.

Definition exponent (s : string) : option (Z * string) :=
  match s with
  | String c s' =>
      if Ascii.eqb c "e" || Ascii.eqb c "E" then
        let '(sg, s1) := sign s' in
        let '(e, count, rest) := digits s1 0 0 in
        if count =? 0 then None else Some (sg * e, rest)
      else Some (0, s)
  | EmptyString => Some (0, s)
  end.

(** [m * 10 ^ e] *)
Definition scale (m e : Z) : Q :=
  if 0 <=? e then inject_Z (m * 10 ^ e)
  else Qred (m # Z.to_pos (10 ^ (- e))).

Definition parse (s : string) : option Q :=
  let '(sg, s1) := sign (lstrip s) in
  let '(ip, icount, s2) := digits s1 0 0 in
  let '(m, fcount, s3) :=
    match s2 with
    | String "." s' => digits s' ip 0
    | _ => (ip, 0, s2)
    end in
  if icount + fcount =? 0 then None
  else match exponent s3 with
       | Some (e, rest) =>
           if all_space rest then Some (scale (sg * m) (e - fcount)) else None
       | None => None
       end.

End Float.

Definition float (s : string) : exn + result :=
  match Float.parse s with
  | Some x => inr (Time x)
  | None => inl (ValueError "could not convert string to float")
  end.

(** Parses the timing output of the psql command. *)
Definition parse_psql_output (s : string) : exn + result :=
  if Py.contains PSQL_TIMEOUT_MSG s then inr TIMEOUT
  else
    let time_start := Py.find_at 0 "Time: " s + Py.len "Time: " in
    let time_end := Py.find " ms" s time_start in
    let time := Py.slice s time_start time_end in
    float (Py.replace_char "," "." time).

(** Performs a single run of the query in the query script file. *)
Definition measure_query_run : M result :=
  let* output := postgres ("psql -p " +:+ Py.fmt_i pg_port +:+ " -o /dev/null -f "
                           +:+ query_script_file +:+ " " +:+ db_name) pg_defaults in
  let* time := lift (parse_psql_output output) in
  emit (StdoutResult "%10s" time " ");;
  flush_stdout;;
  ret time.

(** The measuring loop of [run_query_experiment]: up to [runs] further runs
    are appended to [results], and the loop is left after a TIMEOUT when
    [hard_timeout] is set. *)
Fixpoint measure_loop (runs : nat) (hard_timeout : bool) (results : list result)
    : M (list result) :=
  match runs with
  | O => ret results
  | S runs' =>
      let* r := measure_query_run in
      let results := results ++ [r] in
      if is_timeout r && hard_timeout then ret results
      else measure_loop runs' hard_timeout results
  end.

(** [items[i]] for [0 <= i]. *)
Definition index {A} (items : list A) (i : Z) : exn + A :=
  match items !! Z.to_nat i with
  | Some a => inr a
  | None => inl (IndexError "list index out of range")
  end.

(** The first half of [run_query_experiment], up to the end of its loop:
    the results collected, in the order of the runs. *)
Definition collect_results (query : Query) (runs : Z) (hard_timeout : bool)
    : M (list result) :=
  print_end (Py.take 25 (query_descr query)) " ";;
  flush_stdout;;
  measure_loop (Z.to_nat runs) hard_timeout [].

(** Runs a query experiment a given number of times.  Returns the median
    value of all runs (a timeout is considered to be an infinity). *)
Definition run_query_experiment (data : Data) (query : Query) (runs : Z)
    (hard_timeout : bool) : M result :=
  let* results := collect_results query runs hard_timeout in
  let results := sort_results results in
  let* median := lift (index results (Py.len_list results / 2)) in
  emit (StdoutResult "   MEDIAN: %-10s" median Py.nl);;
  flush_stdout;;
  ret median.

(** ** The CSV report *)

Definition _header_base : list string :=
  ["kind"; "n"; "m0"; "m"; "indexed"; "runs"; "timeout"].

Definition make_report_header (queries : list Query) : list string :=
  _header_base ++ map query_descr queries.

(** A line of the CSV report starts with information about data. *)
Definition start_report_line (data : Data) (timeout runs : Z) : gmap string cell :=
  let line : gmap string cell := {[ "runs" := CInt runs; "timeout" := CInt timeout ]} in
  Py.for_each _header_base line (fun label line =>
    match data_get data label with
    | Some v => <[label := v]> line
    | None => line
    end).

(** [csv.DictWriter(file, fieldnames).writerow(line)]: a key that is not a
    field name is an error, a field without a value is left empty. *)
Definition writerow (file : string) (fieldnames : list string) (line : gmap string cell)
    : M unit :=
  if bool_decide (dom line ⊆ list_to_set fieldnames)
  then emit (CsvRow file (map (fun f => line !! f) fieldnames))
  else raise (ValueError "dict contains fields not in fieldnames").

(** [os.path.join(dir, name)] for a non-empty [dir] without a final slash. *)
Definition path_join (dir name : string) : string :=
  if Py.startswith name "/" then name else dir +:+ "/" +:+ name.

Record Params := mkParams {
  p_runs : option Z;
  p_timeout : option Z;
  p_hard_timeout : option bool;
  p_name : option string;
}.

Definition now_strftime : M string := fun w => (Done (w_now w), w).

(** Runs experiments on given collection of data and given collection of
    queries. *)
Definition run_experiments (datas : list Data) (queries : list Query) (params : Params)
    : M unit :=
  let runs := default default_runs (p_runs params) in
  let timeout := default default_timeout (p_timeout params) in
  let hard_timeout := default default_hard_timeout (p_hard_timeout params) in
  let* now := now_strftime in
  let name := default now (p_name params) in
  when (bool_decide (is_Some (p_name params))) (print ("Running test suite: " +:+ name));;
  when (bool_decide (is_Some (p_timeout params)))
    (print ("Timeout set to " +:+ Py.fmt_i timeout +:+ " microseconds"));;
  let results_file := path_join results_dir (name +:+ ".csv") in
  let report_header := make_report_header queries in
  let report_f := results_file in
  open_w report_f;;
  emit (CsvHeader report_f report_header);;
  for_M datas (fun data =>
    let* data := prepare_data data in
    load_data false;;
    let report_line := start_report_line data timeout runs in
    let* report_line := fold_M queries report_line (fun query report_line =>
      prepare_query query (Some timeout);;
      let* result := run_query_experiment data query runs hard_timeout in
      ret (<[query_descr query := CResult result]> report_line)) in
    writerow report_f report_header report_line;;
    emit (FileFlush report_f)).

(** ** What the specification says, in its own words *)

Section Stated.
Import Py.

(** The PATH/NAIVE query for [k] joins as the specification describes it:
    [k+1] copies of [R] aliased [R0 .. Rk], the [k] conditions
    [Ri.B = R(i+1).A] chained with AND, distinct [R0.A] and [Rk.B], and the
    limit. *)
Definition path_naive_text (k threshold : Z) : string :=
  "SELECT DISTINCT R0.A, R" +:+ fmt_i k +:+ ".B" +:+ nl
  +:+ "FROM " +:+ join ", " (map (fun i => "R AS R" +:+ fmt_i i) (range 0 (k + 1)))
  +:+ nl
  +:+ "WHERE " +:+ join " AND " (map (fun i => "R" +:+ fmt_i i +:+ ".B = R"
                                               +:+ fmt_i (i + 1) +:+ ".A") (range 0 k))
  +:+ nl
  +:+ "LIMIT " +:+ fmt_i threshold +:+ ";".

(** An occurrence, somewhere in the output, of an error or fatal marker
    that is not the beginning of the statement-timeout message. *)
Fixpoint has_stray_marker (output : string) : bool :=
  startswith output "FATAL:"
  || (startswith output "ERROR:" && negb (startswith output PSQL_TIMEOUT_MSG))
  || match output with
     | EmptyString => false
     | String _ rest => has_stray_marker rest
     end.

(** What [postgres] prints before it gives up. *)
Definition diagnostic (params : pg_params) (output : string) : list event :=
  (if str_truthy (msg_on_error params)
   then [Stdout (default EmptyString (msg_on_error params) +:+ nl)] else [])
  ++ [Stdout (output +:+ nl)].

(** [a] does not come after [b] in the order of the sort keys. *)
Definition result_le (a b : result) : Prop :=
  key_lt (sort_key b) (sort_key a) = false.

(** The lower of the two middle positions of a sequence of even length
    [n], counted from 0; the upper one is the next. *)
Definition lower_middle (n : Z) : Z := n / 2 - 1.

(** In a trace, no shell command follows one whose output makes the run a
    TIMEOUT. *)
Fixpoint quiet_after_timeout (trace : list event) : Prop :=
  match trace with
  | [] => True
  | Shell _ output :: rest =>
      (parse_psql_output output = inr TIMEOUT -> commands rest = [])
      /\ quiet_after_timeout rest
  | _ :: rest => quiet_after_timeout rest
  end.

(** What psql prints for a timed query, after the comment in
    [parse_psql_output]: on success, and when the statement is cancelled. *)
Definition timed_output (ms : string) : string :=
  "Timing is on." +:+ nl +:+ "Time: " +:+ ms +:+ " ms" +:+ nl.

Definition timeout_output : string :=
  "Timing is on." +:+ nl +:+ "psql:query-script.sql:7: " +:+ PSQL_TIMEOUT_MSG +:+ nl
  +:+ "Time: 665.042 ms" +:+ nl.

(** Sample inputs. *)
Definition sample_data : Data := mkData "full" (Some 1) None None None None None None.
Definition sample_query : Query := mkQuery "TQ1" "naive" 1 10.
Definition sample_world (outputs : list string) : world :=
  World outputs [] "report-04.11.2026-12-00-00" ∅ [].

End Stated.

(** ** Names for what the code does *)

Section Described.
Import Py.

(** The test [postgres] makes on the captured output. *)
Definition error_reported (output : string) : bool :=
  negb (contains PSQL_TIMEOUT_MSG output)
  && (contains "ERROR:" output || contains "FATAL:" output).

(** The four command lines the script hands to the shell. *)
Definition dropdb_command : string :=
  "dropdb -p 5433 --force --if-exists threshold 2>&1".
Definition createdb_command : string := "createdb -p 5433 threshold 2>&1".
Definition load_command : string := "psql -p 5433 -q -f load-script.sql threshold 2>&1".
Definition query_command : string :=
  "psql -p 5433 -o /dev/null -f query-script.sql threshold 2>&1".

(** The content of a file, empty when there is none. *)
Definition file_content (w : world) (file : string) : string :=
  default EmptyString (w_files w !! file).

(** A world in which a file has been given a content, and one in which a
    text has been added at the end of a file. *)
Definition set_file (w : world) (file content : string) : world :=
  World (w_shell w) (w_graphs w) (w_now w) (<[file := content]> (w_files w)) (w_trace w).

Definition append_file (w : world) (file text : string) : world :=
  set_file w file (file_content w file +:+ text).

(** The query script for a timeout and a query text: the directives, then
    the query. *)
Definition query_script (timeout : option Z) (sql : string) : string :=
  ("SET max_parallel_workers_per_gather = 0;" +:+ nl)
  +:+ (if truthy_Z timeout
       then "SET statement_timeout = " +:+ fmt_i (default 0 timeout) +:+ ";" +:+ nl
       else EmptyString)
  +:+ ("\timing" +:+ nl)
  +:+ sql.

(** The load script that copies the edge file, with or without the
    indexes. *)
Definition copy_script_text : string :=
  ("DROP TABLE IF EXISTS R;" +:+ nl)
  +:+ ("CREATE TABLE R(A INT, B INT);" +:+ nl)
  +:+ ("COPY R FROM '" +:+ r_file +:+ "';" +:+ nl).

Definition index_text (indexed : bool) : string :=
  if indexed
  then "CREATE INDEX ind1 ON R(A);" +:+ "CREATE INDEX ind2 ON R(B);"
       +:+ "CLUSTER R USING ind1;"
  else EmptyString.

Definition load_script_text (indexed : bool) : string :=
  copy_script_text +:+ index_text indexed +:+ ("ANALYZE;" +:+ nl).

(** A line of the edge file, and the lines of the full graph on [n]
    nodes: every pair, loops included, row by row. *)
Definition edge_line (e : Z * Z) : string :=
  fmt_i (fst e) +:+ tab +:+ fmt_i (snd e) +:+ nl.

Definition full_graph_lines (n : Z) : string :=
  concat (map (fun i => concat (map (fun j => edge_line (i, j)) (range 0 n)))
              (range 0 n)).

(** The load script for the IMDb data when no link type is selected. *)
Definition imdb_script_text (indexed : bool) : string :=
  ("--DROP TABLE IF EXISTS MOVIE_LINK;" +:+ nl)
  +:+ ("CREATE TABLE MOVIE_LINK(ID INT, MOVIE_ID INT, LINKED_MOVIE_ID INT, "
       +:+ "LINK_TYPE_ID INT);" +:+ nl)
  +:+ ("\copy MOVIE_LINK FROM '" +:+ movie_link_file +:+ "' CSV" +:+ nl)
  +:+ ("DROP TABLE IF EXISTS R;" +:+ nl)
  +:+ ("CREATE TABLE R(A INT, B INT);" +:+ nl)
  +:+ ("INSERT INTO R" +:+ nl)
  +:+ "SELECT MOVIE_ID, LINKED_MOVIE_ID FROM MOVIE_LINK"
  +:+ (";" +:+ nl)
  +:+ ("DROP TABLE MOVIE_LINK;" +:+ nl)
  +:+ index_text indexed
  +:+ ("ANALYZE;" +:+ nl).

(** The world after the next random graph has been drawn. *)
Definition drop_graph (w : world) : world :=
  World (w_shell w) (tl (w_graphs w)) (w_now w) (w_files w) (w_trace w).

(** More sample inputs: two runs of each query, and a world in which the
    database loads without a word and the two runs complete. *)
Definition sample_params : Params := mkParams (Some 2) None None None.
Definition sample_run_world : world :=
  sample_world [EmptyString; EmptyString; EmptyString;
                timed_output "2.000"; timed_output "1.000"].

(** The rows written to the report, in order. *)
Definition row_of (e : event) : list (list (option cell)) :=
  match e with
  | CsvRow _ row => [row]
  | _ => []
  end.

Definition csv_rows (trace : list event) : list (list (option cell)) :=
  flat_map row_of trace.

Definition shell_of (e : event) : list (string * string) :=
  match e with
  | Shell command output => [(command, output)]
  | _ => []
  end.

(** A computation that adds nothing of one sort to the trace: nothing that
    [f] picks out of an event. *)
Definition keeps {X A} (f : event -> list X) (c : M A) : Prop :=
  forall w, flat_map f (w_trace (snd (c w))) = flat_map f (w_trace w).

(** The commands of a run that loads the database once and then only runs
    queries, [k] of them. *)
Definition load_then_queries (k : nat) : list string :=
  [dropdb_command; createdb_command; load_command] ++ replicate k query_command.


End Described.

(** ** Facts about strings and ranges *)

Section StringFacts.
Import Py.

Lemma append_nil_l (s : string) : EmptyString +:+ s = s.
Proof. reflexivity. Qed.

Lemma append_cons (c : ascii) (s t : string) : String c s +:+ t = String c (s +:+ t).
Proof. reflexivity. Qed.

Lemma append_nil_r (s : string) : s +:+ EmptyString = s.
Proof. induction s as [|c s IH]; [reflexivity | now rewrite append_cons, IH]. Qed.

Lemma append_assoc (a b c : string) : (a +:+ b) +:+ c = a +:+ (b +:+ c).
Proof. induction a as [|x a IH]; [reflexivity | now rewrite !append_cons, IH]. Qed.

Lemma range_nil (a b : Z) : b <= a -> range a b = [].
Proof.
  intros H. unfold range. replace (Z.to_nat (b - a)) with O by lia. reflexivity.
Qed.

Lemma range_cons (a b : Z) : a < b -> range a b = a :: range (a + 1) b.
Proof.
  intros H. unfold range.
  replace (Z.to_nat (b - a)) with (S (Z.to_nat (b - (a + 1)))) by lia.
  rewrite <- cons_seq, <- seq_shift, map_cons, map_map.
  f_equal; [lia |].
  apply map_ext. intros i. lia.
Qed.

(** A loop that appends [f i] for each [i] and a separator after all but
    the last builds the [join] of the pieces. *)
Lemma separator_loop (f : Z -> string) (sep : string) (bound : Z) :
  forall (n : nat) (a : Z) (acc : string),
    Z.to_nat (bound + 1 - a) = n ->
    for_each (range a (bound + 1)) acc
      (fun i query => let query := query +:+ f i in
                      if i <? bound then query +:+ sep else query)
    = acc +:+ join sep (map f (range a (bound + 1))).
Proof.
  induction n as [|n IH]; intros a acc Hn.
  - rewrite range_nil by lia. simpl. now rewrite append_nil_r.
  - rewrite range_cons by lia. unfold for_each in *. simpl fold_left.
    destruct (Z.ltb_spec a bound) as [Hlt|Hge].
    + rewrite IH by lia. rewrite (range_cons (a + 1)) by lia.
      simpl. now rewrite !append_assoc.
    + rewrite range_nil by lia. reflexivity.
Qed.

Lemma take_all (n : nat) (s : string) :
  (String.length s <= n)%nat -> take n s = s.
Proof.
  revert n. induction s as [|c s IH]; intros [|n] H; simpl in *;
    try reflexivity; try lia.
  rewrite IH by lia. reflexivity.
Qed.

(** [s[0:n]] is the first [n] characters of [s], or all of [s]. *)
Lemma slice_prefix (s : string) (n : nat) : slice s 0 (Z.of_nat n) = take n s.
Proof.
  unfold slice.
  assert (clamp s 0 = 0) as ->.
  { unfold clamp, len. change (0 <? 0) with false. cbv iota. lia. }
  assert (clamp s (Z.of_nat n) = Z.min (Z.of_nat n) (len s)) as ->.
  { unfold clamp, len. destruct (Z.ltb_spec (Z.of_nat n) 0); lia. }
  rewrite Z.sub_0_r. change (Z.to_nat 0) with O. unfold len. simpl drop.
  destruct (Nat.le_gt_cases n (String.length s)) as [Hle|Hgt].
  - replace (Z.to_nat _) with n by lia. reflexivity.
  - replace (Z.to_nat _) with (String.length s) by lia.
    rewrite !take_all by lia. reflexivity.
Qed.

Lemma endswith_unfold (s suf : string) :
  endswith s suf
  = if String.eqb s suf then true
    else match s with
         | EmptyString => false
         | String _ s' => endswith s' suf
         end.
Proof. destruct s; reflexivity. Qed.

Lemma endswith_app (a b : string) : endswith (a +:+ b) b = true.
Proof.
  induction a as [|c a IH].
  - rewrite append_nil_l, endswith_unfold. now rewrite String.eqb_refl.
  - rewrite append_cons, endswith_unfold, IH. now destruct (String.eqb _ _).
Qed.

Lemma endswith_app_r (a b suf : string) :
  endswith b suf = true -> endswith (a +:+ b) suf = true.
Proof.
  intros H. induction a as [|c a IH]; [exact H |].
  rewrite append_cons, endswith_unfold, IH. now destruct (String.eqb _ _).
Qed.

Lemma endswith_split (s suf : string) :
  endswith s suf = true -> exists p, s = p +:+ suf.
Proof.
  induction s as [|c s IH]; rewrite endswith_unfold;
    destruct (String.eqb _ suf) eqn:E.
  - apply String.eqb_eq in E. subst. now exists EmptyString.
  - discriminate.
  - apply String.eqb_eq in E. subst. now exists EmptyString.
  - intros H. destruct (IH H) as [p ->]. now exists (String c p).
Qed.

Lemma app_last_inj (a b : string) (c d : ascii) :
  a +:+ String c EmptyString = b +:+ String d EmptyString -> c = d.
Proof.
  revert b. induction a as [|x a IH]; intros [|y b] H;
    rewrite ?append_nil_l, ?append_cons in H.
  - congruence.
  - destruct b; rewrite ?append_nil_l, ?append_cons in H; discriminate.
  - destruct a; rewrite ?append_nil_l, ?append_cons in H; discriminate.
  - injection H as _ H. eauto.
Qed.

(** The decimal numeral that [%i] prints ends in a digit. *)
Lemma pretty_N_go_suffix (x : N) :
  forall s, exists p, pretty_N_go x s = p +:+ s.
Proof.
  induction (N.lt_wf_0 x) as [x _ IH]. intros s.
  destruct (N.eq_0_gt_0_cases x) as [->|Hpos].
  - exists EmptyString. apply pretty_N_go_0.
  - rewrite pretty_N_go_step by assumption.
    destruct (IH (x `div` 10)%N (N.div_lt x 10 Hpos eq_refl)
                 (String (pretty_N_char (x `mod` 10)) s)) as [p Hp].
    rewrite Hp. exists (p +:+ String (pretty_N_char (x `mod` 10)) EmptyString).
    now rewrite append_assoc.
Qed.

Lemma pretty_positive_last (x : positive) :
  exists p d, pretty x = p +:+ String (pretty_N_char d) EmptyString.
Proof.
  unfold pretty, pretty_positive, pretty, pretty_N.
  destruct (decide (N.pos x = 0%N)) as [E|_]; [discriminate |].
  rewrite pretty_N_go_step by lia.
  destruct (pretty_N_go_suffix (N.pos x `div` 10)
              (String (pretty_N_char (N.pos x `mod` 10)) EmptyString)) as [p Hp].
  eauto.
Qed.

Lemma fmt_i_last (z : Z) :
  exists p d, fmt_i z = p +:+ String (pretty_N_char d) EmptyString.
Proof.
  unfold fmt_i, pretty, pretty_Z. destruct z as [|x|x].
  - now exists EmptyString, 0%N.
  - apply pretty_positive_last.
  - destruct (pretty_positive_last x) as (p & d & ->).
    now exists ("-" +:+ p), d.
Qed.

Lemma digit_not_semicolon (d : N) : pretty_N_char d <> ";"%char.
Proof. unfold pretty_N_char. repeat case_match; discriminate. Qed.

(** A text that ends with a number does not end with the separator. *)
Lemma endswith_number (a : string) (z : Z) : endswith (a +:+ fmt_i z) ";" = false.
Proof.
  destruct (endswith (a +:+ fmt_i z) ";") eqn:E; [| reflexivity].
  apply endswith_split in E as [q Hq].
  destruct (fmt_i_last z) as (p & d & Hp).
  rewrite Hp, <- append_assoc in Hq.
  apply app_last_inj in Hq. now apply digit_not_semicolon in Hq.
Qed.

End StringFacts.

(** ** The generators *)

Section GeneratorFacts.
Import Py.

Lemma from_loop_join (k : Z) (acc : string) :
  from_loop (k + 1) acc
  = acc +:+ join ", " (map (fun i => "R AS R" +:+ fmt_i i) (range 0 (k + 1))).
Proof.
  unfold from_loop. replace (k + 1 - 1) with k by lia.
  now apply (separator_loop (fun i => "R AS R" +:+ fmt_i i) ", " k (Z.to_nat (k + 1 - 0))).
Qed.

Lemma where_loop_join (k : Z) (acc : string) :
  where_loop (k + 1) acc
  = acc +:+ join " AND " (map (fun i => "R" +:+ fmt_i i +:+ ".B = R"
                                         +:+ fmt_i (i + 1) +:+ ".A") (range 0 k)).
Proof.
  unfold where_loop. replace (k + 1 - 1) with (k - 1 + 1) by lia.
  replace (k - 1 + 1 - 1) with (k - 1) by lia.
  rewrite (separator_loop (fun i => "R" +:+ fmt_i i +:+ ".B = R" +:+ fmt_i (i + 1) +:+ ".A")
             " AND " (k - 1) (Z.to_nat (k - 1 + 1 - 0))) by reflexivity.
  now replace (k - 1 + 1) with k by lia.
Qed.

(** C8.  For every number of joins [k >= 1] and every threshold, the
    PATH/NAIVE generator applied to length [k+1] produces the query that
    joins [k+1] copies of [R], aliased [R0 .. Rk], under the [k] chained
    conditions [Ri.B = R(i+1).A], selects distinct [R0.A] and [Rk.B], and
    ends with the limit set to the threshold. *)
Theorem prep_path_naiv_query_text (k threshold : Z) :
  1 <= k -> prep_path_naiv_query (k + 1) threshold = path_naive_text k threshold.
Proof.
  intros _. unfold prep_path_naiv_query, path_naive_text. cbv zeta.
  rewrite where_loop_join, from_loop_join.
  replace (k + 1 - 1) with k by lia.
  now rewrite !append_assoc.
Qed.

Lemma prep_path_naiv_query_text_witness :
  1 <= 2 /\ prep_path_naiv_query (2 + 1) 10 = path_naive_text 2 10.
Proof. split; [lia | apply (prep_path_naiv_query_text 2 10); lia]. Defined.

(** C9.  The column key of a query descriptor is its class tag, a dash,
    the first four characters of its method, a dash, and K followed by the
    number of joins; the threshold has no part in it, so that descriptors
    that differ in the threshold only get the same key. *)
Theorem query_descr_key (kind method : string) (k threshold : Z) :
  query_descr (mkQuery kind method k threshold)
  = kind +:+ "-" +:+ take 4 method +:+ "-K" +:+ fmt_i k
  /\ forall threshold', query_descr (mkQuery kind method k threshold')
                        = query_descr (mkQuery kind method k threshold).
Proof.
  split; [| reflexivity].
  unfold query_descr. cbv zeta. simpl q_kind. simpl q_method. simpl q_k.
  change (slice method 0 4) with (slice method 0 (Z.of_nat 4)).
  now rewrite slice_prefix.
Qed.

(** C6.  Five of the six generators of the constructor table end their
    text with the statement separator, whatever the length and threshold;
    the sixth, TQ3 windowed, never does: its text ends with the threshold. *)
Theorem terminated_except_conn_windowed (length threshold : Z) :
  query_constructors !! "TQ1" ≫= (.!! "naive") = Some prep_path_naiv_query
  /\ query_constructors !! "TQ1" ≫= (.!! "windowed") = Some prep_path_wind_query_backward
  /\ query_constructors !! "TQ2" ≫= (.!! "naive") = Some prep_neig_naiv_query
  /\ query_constructors !! "TQ2" ≫= (.!! "windowed") = Some prep_neig_wind_query_backward
  /\ query_constructors !! "TQ3" ≫= (.!! "naive") = Some prep_conn_naiv_query
  /\ query_constructors !! "TQ3" ≫= (.!! "windowed") = Some prep_conn_wind_query_forward
  /\ endswith (prep_path_naiv_query length threshold) ";" = true
  /\ endswith (prep_path_wind_query_backward length threshold) ";" = true
  /\ endswith (prep_neig_naiv_query length threshold) ";" = true
  /\ endswith (prep_neig_wind_query_backward length threshold) ";" = true
  /\ endswith (prep_conn_naiv_query length threshold) ";" = true
  /\ endswith (prep_conn_wind_query_forward length threshold) ";" = false.
Proof.
  repeat split; try reflexivity.
  - unfold prep_path_naiv_query. cbv zeta.
    rewrite <- !append_assoc. apply endswith_app.
  - unfold prep_path_wind_query_backward. cbv zeta.
    rewrite <- !append_assoc. apply endswith_app.
  - unfold prep_neig_naiv_query. cbv zeta.
    rewrite <- !append_assoc. apply endswith_app.
  - unfold prep_neig_wind_query_backward. cbv zeta.
    now apply endswith_app_r.
  - unfold prep_conn_naiv_query. cbv zeta.
    rewrite <- !append_assoc. apply endswith_app.
  - unfold prep_conn_wind_query_forward. cbv zeta.
    rewrite <- !append_assoc. apply endswith_number.
Qed.

End GeneratorFacts.

(** ** The Python objects *)

(** C10.  With any non-empty collection of link types [calc_imdb_size]
    raises a TypeError, because it calls the dictionary [imdb_size]; it
    returns a size, the 29997 edges of 'all', only when the collection is
    empty or None. *)
Theorem calc_imdb_size_calls_dict :
  (forall t rest,
     calc_imdb_size (Some (t :: rest)) = inl (TypeError "'dict' object is not callable"))
  /\ calc_imdb_size (Some []) = inr 29997
  /\ calc_imdb_size None = inr 29997
  /\ (forall link_types size,
        calc_imdb_size link_types = inr size ->
        (link_types = None \/ link_types = Some []) /\ size = 29997).
Proof.
  repeat split; try reflexivity.
  - destruct link_types as [[|t rest]|]; auto. discriminate.
  - destruct link_types as [[|t rest]|]; cbv in H; congruence.
Qed.

(** ** One query *)

Section QueryFacts.
Import Py.

(** C7.  Each of the six generators of the constructor table is
    deterministic and stateless: called with the same length and threshold
    in two runs of the process, whatever the state of each, it yields the
    same SQL text, and it leaves the state as it found it. *)
Theorem construct_query_deterministic (kind method : string) (length threshold : Z)
    (w1 w2 : world) :
  kind = "TQ1" \/ kind = "TQ2" \/ kind = "TQ3" ->
  method = "naive" \/ method = "windowed" ->
  exists text : string,
    construct_query kind method length threshold w1 = (Done text, w1)
    /\ construct_query kind method length threshold w2 = (Done text, w2).
Proof.
  intros [-> | [-> | ->]] [-> | ->]; eexists; split; reflexivity.
Qed.

Lemma construct_query_deterministic_witness :
  exists text : string,
    construct_query "TQ3" "windowed" 3 10 (World [] [] "report-04.11.2026-12-00-00" ∅ [])
    = (Done text, World [] [] "report-04.11.2026-12-00-00" ∅ [])
    /\ construct_query "TQ3" "windowed" 3 10
         (World ["Time: 1.000 ms"] [] "report-04.11.2026-13-00-00" ∅ [StdoutFlush])
       = (Done text,
          World ["Time: 1.000 ms"] [] "report-04.11.2026-13-00-00" ∅ [StdoutFlush]).
Proof.
  apply construct_query_deterministic; [right; right; reflexivity | right; reflexivity].
Defined.

End QueryFacts.

(** ** Running PostgreSQL commands *)

Section PostgresFacts.
Import Py.

Lemma find_at_nil (off : Z) (sub : string) :
  find_at off sub EmptyString = if startswith EmptyString sub then off else -1.
Proof. reflexivity. Qed.

Lemma find_at_cons (off : Z) (sub : string) (c : ascii) (s : string) :
  find_at off sub (String c s)
  = if startswith (String c s) sub then off else find_at (off + 1) sub s.
Proof. reflexivity. Qed.

Lemma find_at_shift (sub s : string) :
  forall off, 0 <= off -> (0 <=? find_at off sub s) = (0 <=? find_at 0 sub s).
Proof.
  induction s as [|c s IH]; intros off Hoff.
  - rewrite !find_at_nil. destruct (startswith EmptyString sub); [| reflexivity].
    now apply Z.leb_le.
  - rewrite !find_at_cons. destruct (startswith (String c s) sub).
    + now apply Z.leb_le.
    + rewrite (IH (off + 1)) by lia. now rewrite (IH (0 + 1)) by lia.
Qed.

Lemma contains_cons (sub : string) (c : ascii) (s : string) :
  contains sub (String c s) = startswith (String c s) sub || contains sub s.
Proof.
  unfold contains. rewrite find_at_cons.
  destruct (startswith (String c s) sub); [reflexivity |].
  now rewrite find_at_shift by lia.
Qed.

(** A stray marker is, in particular, an occurrence of ERROR: or FATAL:. *)
Lemma stray_marker_contains (output : string) :
  has_stray_marker output = true ->
  contains "ERROR:" output || contains "FATAL:" output = true.
Proof.
  induction output as [|c s IH].
  - discriminate.
  - cbn [has_stray_marker]. rewrite !contains_cons.
    destruct (startswith (String c s) "FATAL:"); [intros _; apply orb_true_r |].
    destruct (startswith (String c s) "ERROR:"); [reflexivity |].
    cbn [orb andb]. intros H. now apply IH in H.
Qed.

Lemma startswith_app (a b : string) :
  forall s, startswith s (a +:+ b) = true -> startswith s a = true.
Proof.
  induction a as [|x a IH]; intros s H.
  - now destruct s.
  - rewrite append_cons in H. destruct s as [|y s]; [discriminate |].
    cbn [startswith] in *. destruct (Ascii.eqb x y); [now apply IH | discriminate].
Qed.

(** The timeout message begins with an error marker, so that an output
    with the message always has the marker. *)
Lemma timeout_msg_is_error (output : string) :
  contains PSQL_TIMEOUT_MSG output = true -> contains "ERROR:" output = true.
Proof.
  induction output as [|c s IH].
  - discriminate.
  - rewrite !contains_cons.
    destruct (startswith (String c s) PSQL_TIMEOUT_MSG) eqn:E.
    + intros _. apply orb_true_iff. left.
      now apply (startswith_app "ERROR:" "  canceling statement due to statement timeout").
    + cbn [orb]. intros H. rewrite (IH H). apply orb_true_r.
Qed.

(** C3, as the code has it.  When the captured output has an error or
    fatal marker that is not the timeout message, errors are not ignored,
    and the timeout message occurs nowhere in the output, [postgres] stops
    the process with status 1 right after printing the diagnostic output.
    When the timeout message does occur somewhere, [postgres] does not stop,
    whatever other markers there are: it returns the output. *)
Theorem postgres_halts_without_timeout_msg (command : string) (params : pg_params)
    (output : string) (rest : list string) (w : world) :
  w_shell w = output :: rest ->
  ignore_errors params = false ->
  has_stray_marker output = true ->
  if contains PSQL_TIMEOUT_MSG output
  then fst (postgres command params w) = Done output
  else postgres command params w
       = (Exited 1,
          World rest (w_graphs w) (w_now w) (w_files w)
                (w_trace w ++ [Shell (command +:+ " 2>&1") output]
                 ++ diagnostic params output)).
Proof.
  intros Hshell Hignore Hmarker.
  apply stray_marker_contains in Hmarker.
  unfold postgres, popen_read, bind, when, diagnostic, print, emit, add_events.
  rewrite Hshell, Hignore. cbn [hd tl]. rewrite Hmarker.
  destruct (contains PSQL_TIMEOUT_MSG output); cbn [negb andb].
  - now destruct (verbose params || contains "WARNING:" output).
  - destruct (str_truthy (msg_on_error params)); cbn;
      now rewrite <- ?List.app_assoc.
Qed.

Lemma postgres_halts_without_timeout_msg_witness :
  postgres "psql -p 5433 -q -f load-script.sql threshold"
           (PgParams false false (Some "Error while data loading occurred"))
           (World ["psql: FATAL:  database does not exist"] [] "report-04.11.2026-12-00-00" ∅ [])
  = (Exited 1,
     World [] [] "report-04.11.2026-12-00-00" ∅
       [Shell "psql -p 5433 -q -f load-script.sql threshold 2>&1"
              "psql: FATAL:  database does not exist";
        Stdout ("Error while data loading occurred" +:+ nl);
        Stdout ("psql: FATAL:  database does not exist" +:+ nl)])
  /\ fst (postgres "psql -p 5433 -o /dev/null -f query-script.sql threshold" pg_defaults
            (World [timeout_output +:+ "FATAL:  terminating connection"]
                   [] "report-04.11.2026-12-00-00" ∅ []))
     = Done (timeout_output +:+ "FATAL:  terminating connection").
Proof.
  split.
  - apply (postgres_halts_without_timeout_msg
             "psql -p 5433 -q -f load-script.sql threshold"
             (PgParams false false (Some "Error while data loading occurred"))
             "psql: FATAL:  database does not exist" []
             (World ["psql: FATAL:  database does not exist"] [] "report-04.11.2026-12-00-00" ∅ []));
      reflexivity.
  - apply (postgres_halts_without_timeout_msg
             "psql -p 5433 -o /dev/null -f query-script.sql threshold" pg_defaults
             (timeout_output +:+ "FATAL:  terminating connection") []
             (World [timeout_output +:+ "FATAL:  terminating connection"]
                    [] "report-04.11.2026-12-00-00" ∅ []));
      reflexivity.
Defined.

(** C3, as stated, fails: an output that has the timeout message and,
    elsewhere, a fatal marker does not stop the process. *)
Lemma postgres_passes_marker_beside_timeout :
  ~ (forall (command : string) (params : pg_params) (output : string)
            (rest : list string) (w : world),
       w_shell w = output :: rest ->
       ignore_errors params = false ->
       has_stray_marker output = true ->
       exists w', postgres command params w = (Exited 1, w')).
Proof.
  intros H.
  destruct (H "psql -p 5433 -o /dev/null -f query-script.sql threshold" pg_defaults
              (timeout_output +:+ "FATAL:  terminating connection") []
              (World [timeout_output +:+ "FATAL:  terminating connection"]
                     [] "report-04.11.2026-12-00-00" ∅ []))
    as [w' E]; try reflexivity.
  vm_compute in E. discriminate E.
Qed.

End PostgresFacts.

(** ** Sorting the results *)

Section SortFacts.

Lemma key_lt_asym (a b : key) : key_lt a b = true -> key_lt b a = false.
Proof.
  destruct a as [x|], b as [y|]; simpl; try easy.
  rewrite !negb_true_iff, negb_false_iff. intros H.
  apply Qle_bool_iff. destruct (Qle_bool y x) eqn:E; [discriminate |].
  destruct (Qlt_le_dec x y) as [Hlt|Hle]; [now apply Qlt_le_weak |].
  apply Qle_bool_iff in Hle. congruence.
Qed.

Lemma key_lt_finite_false (x y : Q) :
  key_lt (Finite y) (Finite x) = false <-> (y >= x)%Q.
Proof. simpl. rewrite negb_false_iff. apply Qle_bool_iff. Qed.

Lemma result_le_trans : Transitive result_le.
Proof.
  intros a b c. unfold result_le.
  destruct a as [x|], b as [y|], c as [z|]; simpl; try easy.
  rewrite !negb_false_iff, !Qle_bool_iff. apply Qle_trans.
Qed.

Lemma insert_sorted_perm (x : result) (l : list result) :
  insert_sorted x l ≡ₚ x :: l.
Proof.
  induction l as [|y l IH]; simpl; [reflexivity |].
  destruct (key_lt (sort_key y) (sort_key x)); [| reflexivity].
  rewrite IH. apply perm_swap.
Qed.

Lemma sort_results_perm (l : list result) : sort_results l ≡ₚ l.
Proof.
  induction l as [|x l IH]; simpl; [reflexivity |].
  now rewrite insert_sorted_perm, IH.
Qed.

Lemma insert_sorted_hd (x y : result) (l : list result) :
  result_le y x -> HdRel result_le y l -> HdRel result_le y (insert_sorted x l).
Proof.
  intros Hyx Hl. destruct l as [|z l]; simpl; [now constructor |].
  destruct (key_lt (sort_key z) (sort_key x)); constructor; [| assumption].
  now inversion Hl.
Qed.

Lemma insert_sorted_sorted (x : result) (l : list result) :
  Sorted result_le l -> Sorted result_le (insert_sorted x l).
Proof.
  induction 1 as [|y l Hl IH Hhd]; simpl; [repeat constructor |].
  destruct (key_lt (sort_key y) (sort_key x)) eqn:E.
  - constructor; [assumption |].
    apply insert_sorted_hd; [| assumption].
    now apply key_lt_asym.
  - repeat constructor; assumption.
Qed.

Lemma sort_results_sorted (l : list result) : StronglySorted result_le (sort_results l).
Proof.
  apply (@Sorted_StronglySorted _ _ result_le_trans).
  induction l as [|x l IH]; simpl; [constructor |].
  now apply insert_sorted_sorted.
Qed.

Lemma strongly_sorted_lookup (l : list result) :
  StronglySorted result_le l ->
  forall (i j : nat) (a b : result),
    (i < j)%nat -> l !! i = Some a -> l !! j = Some b -> result_le a b.
Proof.
  induction 1 as [|x l Hl IH Hall]; intros i j a b Hij Ha Hb; [discriminate |].
  destruct j as [|j]; [lia |]. destruct i as [|i]; simpl in *.
  - injection Ha as <-. rewrite Forall_forall in Hall. apply Hall.
    eapply list_elem_of_lookup_2, Hb.
  - apply (IH i j); [lia | assumption..].
Qed.

(** In the sorted list every duration stands before every TIMEOUT. *)
Lemma sort_results_timeout_last (l : list result) (i j : nat) (x : Q) :
  sort_results l !! i = Some TIMEOUT -> sort_results l !! j = Some (Time x) ->
  (j < i)%nat.
Proof.
  intros Hi Hj.
  destruct (Nat.lt_trichotomy j i) as [?|[->|Hlt]]; [assumption | congruence |].
  now pose proof (strongly_sorted_lookup _ (sort_results_sorted l) i j _ _ Hlt Hi Hj).
Qed.

Lemma sort_results_length (l : list result) :
  Py.len_list (sort_results l) = Py.len_list l.
Proof. unfold Py.len_list. now rewrite (Permutation_length (sort_results_perm l)). Qed.

End SortFacts.

(** ** The median of the runs *)

Section MedianFacts.
Import Py.

Lemma add_events_add (w : world) (a b : list event) :
  add_events (add_events w a) b = add_events w (a ++ b).
Proof. unfold add_events. simpl. now rewrite <- List.app_assoc. Qed.

Lemma index_lookup {A} (items : list A) (i : Z) (a : A) :
  index items i = inr a <-> items !! Z.to_nat i = Some a.
Proof. unfold index. destruct (items !! Z.to_nat i); split; congruence. Qed.

(** After its loop, [run_query_experiment] sorts what was collected, takes
    the element in position [len // 2], prints it and returns it. *)
Lemma run_query_experiment_median (data : Data) (query : Query) (runs : Z)
    (hard_timeout : bool) (w w' : world) (results : list result) :
  collect_results query runs hard_timeout w = (Done results, w') ->
  run_query_experiment data query runs hard_timeout w
  = match index (sort_results results) (len_list results / 2) with
    | inr median =>
        (Done median,
         add_events w' [StdoutResult "   MEDIAN: %-10s" median nl; StdoutFlush])
    | inl e => (Raised e, w')
    end.
Proof.
  intros H. unfold run_query_experiment, bind. rewrite H.
  rewrite sort_results_length.
  destruct (index (sort_results results) (len_list results / 2)); [reflexivity |].
  unfold lift, ret, emit, flush_stdout, emit. now rewrite add_events_add.
Qed.

(** C5.  The results are sorted with TIMEOUT as a key greater than every
    finite duration: the list the median is taken from is a permutation of
    the collected results, ascending by key, with every duration before
    every TIMEOUT.  In particular, for the results [120.5, TIMEOUT, 95.0]
    the value returned is 120.5. *)
Theorem timeout_sorts_as_infinity (data : Data) (query : Query) (runs : Z)
    (hard_timeout : bool) (w w' : world) (results : list result) :
  collect_results query runs hard_timeout w = (Done results, w') ->
  let sorted := sort_results results in
  sorted ≡ₚ results
  /\ StronglySorted result_le sorted
  /\ (forall x : Q, key_lt (Finite x) (sort_key TIMEOUT) = true
                    /\ key_lt (sort_key TIMEOUT) (Finite x) = false)
  /\ (forall (i j : nat) (x : Q),
        sorted !! i = Some TIMEOUT -> sorted !! j = Some (Time x) -> (j < i)%nat)
  /\ fst (run_query_experiment data query runs hard_timeout w)
     = fst (lift (index sorted (len_list sorted / 2)) w')
  /\ (results = [Time (241 # 2); TIMEOUT; Time 95] ->
      fst (run_query_experiment data query runs hard_timeout w) = Done (Time (241 # 2))).
Proof.
  intros H sorted. subst sorted.
  split; [apply sort_results_perm |].
  split; [apply sort_results_sorted |].
  split; [now split |].
  split; [intros i j x; apply sort_results_timeout_last |].
  rewrite (run_query_experiment_median _ _ _ _ _ _ _ H), sort_results_length.
  split.
  - now destruct (index (sort_results results) (len_list results / 2)).
  - now intros ->.
Qed.

Lemma timeout_sorts_as_infinity_witness :
  fst (run_query_experiment sample_data sample_query 3 false
         (sample_world [timed_output "120.500"; timeout_output; timed_output "95,000"]))
  = Done (Time (241 # 2)).
Proof.
  edestruct (timeout_sorts_as_infinity sample_data sample_query 3 false
               (sample_world [timed_output "120.500"; timeout_output; timed_output "95,000"]))
    as (_ & _ & _ & _ & _ & H).
  - vm_compute. reflexivity.
  - apply H. reflexivity.
Defined.

(** C2, as the code has it.  For every non-empty sequence of collected
    results of even length, the value returned is the element of the sorted
    sequence in position [len // 2], which is the upper of the two middle
    elements; it is one of the collected results, not an average. *)
Theorem even_length_median_is_upper_middle (data : Data) (query : Query) (runs : Z)
    (hard_timeout : bool) (w w' : world) (results : list result) :
  collect_results query runs hard_timeout w = (Done results, w') ->
  results <> [] ->
  Z.even (len_list results) = true ->
  exists lower upper : result,
    index (sort_results results) (lower_middle (len_list results)) = inr lower
    /\ index (sort_results results) (lower_middle (len_list results) + 1) = inr upper
    /\ result_le lower upper
    /\ fst (run_query_experiment data query runs hard_timeout w) = Done upper
    /\ upper ∈ results.
Proof.
  intros H Hne Heven.
  assert (Hlen : 2 <= len_list results).
  { unfold len_list in *. destruct results as [|a [|b l]]; [easy | discriminate |].
    simpl length. lia. }
  unfold lower_middle.
  assert (Hhalf : 1 <= len_list results / 2 < len_list results).
  { split; [apply Z.div_le_lower_bound; lia | apply Z.div_lt; lia]. }
  replace (len_list results / 2 - 1 + 1) with (len_list results / 2) by lia.
  destruct (lookup_lt_is_Some_2 (sort_results results)
              (Z.to_nat (len_list results / 2 - 1))) as [lower Hlower].
  { pose proof (sort_results_length results). unfold len_list in *. lia. }
  destruct (lookup_lt_is_Some_2 (sort_results results)
              (Z.to_nat (len_list results / 2))) as [upper Hupper].
  { pose proof (sort_results_length results). unfold len_list in *. lia. }
  exists lower, upper.
  rewrite !index_lookup. repeat split; try assumption.
  - apply (strongly_sorted_lookup _ (sort_results_sorted results)
             (Z.to_nat (len_list results / 2 - 1)) (Z.to_nat (len_list results / 2)));
      [lia | assumption..].
  - rewrite (run_query_experiment_median _ _ _ _ _ _ _ H).
    apply index_lookup in Hupper. now rewrite Hupper.
  - rewrite <- (sort_results_perm results). eapply list_elem_of_lookup_2, Hupper.
Qed.

Lemma even_length_median_is_upper_middle_witness :
  exists lower upper : result,
    index (sort_results [Time 2; Time 1]) (lower_middle (len_list [Time 2; Time 1]))
    = inr lower
    /\ index (sort_results [Time 2; Time 1]) (lower_middle (len_list [Time 2; Time 1]) + 1)
       = inr upper
    /\ result_le lower upper
    /\ fst (run_query_experiment sample_data sample_query 2 false
              (sample_world [timed_output "2.000"; timed_output "1.000"])) = Done upper
    /\ upper ∈ [Time 2; Time 1].
Proof.
  eapply (even_length_median_is_upper_middle sample_data sample_query 2 false
            (sample_world [timed_output "2.000"; timed_output "1.000"])).
  - vm_compute. reflexivity.
  - discriminate.
  - reflexivity.
Defined.

(** C2, as stated, fails: of the two runs 2.0 and 1.0 the value returned is
    2.0, which is not the element in the lower middle position, 1.0. *)
Lemma lower_median_refuted :
  ~ (forall (data : Data) (query : Query) (runs : Z) (hard_timeout : bool)
            (w w' : world) (results : list result),
       collect_results query runs hard_timeout w = (Done results, w') ->
       Z.even (len_list results) = true ->
       exists lower : result,
         index (sort_results results) (lower_middle (len_list results)) = inr lower
         /\ fst (run_query_experiment data query runs hard_timeout w) = Done lower).
Proof.
  intros H.
  edestruct (H sample_data sample_query 2 false
               (sample_world [timed_output "2.000"; timed_output "1.000"]))
    as (lower & Hlower & Hrun).
  - vm_compute. reflexivity.
  - reflexivity.
  - vm_compute in Hlower, Hrun. congruence.
Qed.

End MedianFacts.

(** ** Stopping at the first timeout *)

Section HardTimeoutFacts.
Import Py.

Lemma commands_app (a b : list event) : commands (a ++ b) = commands a ++ commands b.
Proof. unfold commands, shell_log. now rewrite flat_map_app, map_app. Qed.

Lemma commands_shell (command output : string) (trace : list event) :
  commands (Shell command output :: trace) = command :: commands trace.
Proof. reflexivity. Qed.

Lemma quiet_no_commands (trace : list event) :
  commands trace = [] -> quiet_after_timeout trace.
Proof.
  induction trace as [|e trace IH]; [easy |].
  destruct e; try exact IH. discriminate.
Qed.

Lemma quiet_app (a b : list event) :
  commands a = [] -> quiet_after_timeout b -> quiet_after_timeout (a ++ b).
Proof.
  induction a as [|e a IH]; [easy |].
  destruct e; try exact IH. discriminate.
Qed.

Lemma quiet_split (trace : list event) :
  quiet_after_timeout trace ->
  forall pre command output post,
    trace = pre ++ Shell command output :: post ->
    parse_psql_output output = inr TIMEOUT -> commands post = [].
Proof.
  intros Hq pre. revert trace Hq.
  induction pre as [|e pre IH]; intros trace Hq command output post -> Hto.
  - now apply Hq.
  - eapply IH; [| reflexivity | eassumption].
    destruct e; try exact Hq. apply Hq.
Qed.

Lemma parse_psql_output_timeout (output : string) :
  parse_psql_output output = inr TIMEOUT <-> contains PSQL_TIMEOUT_MSG output = true.
Proof.
  unfold parse_psql_output, float.
  destruct (contains PSQL_TIMEOUT_MSG output); [easy |].
  destruct (Float.parse _); split; discriminate.
Qed.

(** One timed run: the command it issues, and that nothing else is run;
    its result is what the output parses to, and a TIMEOUT whenever the
    output has the timeout message. *)
Lemma measure_query_run_cases (w : world) :
  exists (command : string) (tail : list event),
    w_trace (snd (measure_query_run w))
    = w_trace w ++ Shell command (hd EmptyString (w_shell w)) :: tail
    /\ commands tail = []
    /\ w_shell (snd (measure_query_run w)) = tl (w_shell w)
    /\ (forall r, fst (measure_query_run w) = Done r ->
                  parse_psql_output (hd EmptyString (w_shell w)) = inr r)
    /\ (parse_psql_output (hd EmptyString (w_shell w)) = inr TIMEOUT ->
        fst (measure_query_run w) = Done TIMEOUT).
Proof.
  unfold measure_query_run, postgres, popen_read, bind, when, pg_defaults,
    print, flush_stdout, emit, lift, ret, raise, exit, add_events.
  cbn [ignore_errors verbose msg_on_error str_truthy negb orb].
  set (output := hd EmptyString (w_shell w)).
  destruct (contains PSQL_TIMEOUT_MSG output) eqn:Hto.
  - apply parse_psql_output_timeout in Hto.
    destruct (contains "WARNING:" output);
      cbn [negb andb fst snd w_trace w_shell];
      rewrite !Hto; cbn [fst snd w_trace w_shell];
      do 2 eexists;
      (split; [rewrite <- ?List.app_assoc; reflexivity |]);
      repeat split; congruence.
  - assert (Hp : parse_psql_output output <> inr TIMEOUT).
    { rewrite parse_psql_output_timeout. congruence. }
    destruct (contains "ERROR:" output || contains "FATAL:" output);
      destruct (contains "WARNING:" output);
      cbn [negb andb fst snd w_trace w_shell];
      try destruct (parse_psql_output output) as [e|r] eqn:Hparse;
      cbn [fst snd w_trace w_shell];
      do 2 eexists;
      (split; [rewrite <- ?List.app_assoc; reflexivity |]);
      repeat split; intros; congruence.
Qed.

(** With the hard timeout on, the loop runs nothing after a TIMEOUT. *)
Lemma measure_loop_quiet (n : nat) :
  forall (results : list result) (w : world),
  exists new : list event,
    w_trace (snd (measure_loop n true results w)) = w_trace w ++ new
    /\ quiet_after_timeout new.
Proof.
  induction n as [|n IH]; intros results w.
  - exists []. split; [symmetry; apply app_nil_r | exact I].
  - cbn [measure_loop]. unfold bind.
    destruct (measure_query_run_cases w) as (c & tail & Htr & Hcmd & _ & Hres & _).
    destruct (measure_query_run w) as [[r|e|status] w1]; cbn [fst snd] in *.
    + specialize (Hres r eq_refl). destruct r as [x|]; cbn [is_timeout andb].
      * destruct (IH (results ++ [Time x]) w1) as (new & Hnew & Hq).
        exists ((Shell c (hd EmptyString (w_shell w)) :: tail) ++ new).
        rewrite Hnew, Htr, <- !List.app_assoc. split; [reflexivity |].
        split; [rewrite Hres; discriminate | now apply quiet_app].
      * exists (Shell c (hd EmptyString (w_shell w)) :: tail).
        split; [assumption |]. split; [easy | now apply quiet_no_commands].
    + exists (Shell c (hd EmptyString (w_shell w)) :: tail).
      split; [assumption |]. split; [easy | now apply quiet_no_commands].
    + exists (Shell c (hd EmptyString (w_shell w)) :: tail).
      split; [assumption |]. split; [easy | now apply quiet_no_commands].
Qed.

Lemma collect_results_unfold (query : Query) (runs : Z) (hard_timeout : bool) (w : world) :
  collect_results query runs hard_timeout w
  = measure_loop (Z.to_nat runs) hard_timeout []
      (add_events w [Stdout (take 25 (query_descr query) +:+ " "); StdoutFlush]).
Proof.
  unfold collect_results, bind, print_end, flush_stdout, emit.
  now rewrite add_events_add.
Qed.

(** C4.  With the hard timeout enabled, [run_query_experiment] runs no
    further command after the first run whose result is TIMEOUT; in
    particular, when the very first run is a TIMEOUT it is the only run and
    the value returned is TIMEOUT. *)
Theorem hard_timeout_stops_runs (data : Data) (query : Query) (runs : Z)
    (hard_timeout : bool) (w : world) :
  hard_timeout = true ->
  let run := run_query_experiment data query runs hard_timeout w in
  (exists new : list event,
     w_trace (snd run) = w_trace w ++ new
     /\ forall pre command output post,
          new = pre ++ Shell command output :: post ->
          parse_psql_output output = inr TIMEOUT ->
          commands post = [])
  /\ (1 <= runs ->
      parse_psql_output (hd EmptyString (w_shell w)) = inr TIMEOUT ->
      fst run = Done TIMEOUT
      /\ exists command : string,
           commands (w_trace (snd run)) = commands (w_trace w) ++ [command]).
Proof.
  intros -> run. subst run. split.
  - set (w0 := add_events w [Stdout (take 25 (query_descr query) +:+ " "); StdoutFlush]).
    destruct (measure_loop_quiet (Z.to_nat runs) [] w0) as (new & Hnew & Hq).
    pose proof (collect_results_unfold query runs true w) as Hc. fold w0 in Hc.
    destruct (measure_loop (Z.to_nat runs) true [] w0) as [[results|e|status] w1] eqn:E;
      cbn [fst snd] in Hnew.
    + rewrite (run_query_experiment_median _ _ _ _ _ _ _ Hc).
      destruct (index (sort_results results) (len_list results / 2)) as [e|median];
        cbn [fst snd].
      * exists ([Stdout (take 25 (query_descr query) +:+ " "); StdoutFlush] ++ new).
        rewrite Hnew. unfold w0, add_events. cbn [w_trace].
        rewrite <- List.app_assoc. split; [reflexivity |].
        apply quiet_split. now apply quiet_app.
      * exists ([Stdout (take 25 (query_descr query) +:+ " "); StdoutFlush]
                ++ new ++ [StdoutResult "   MEDIAN: %-10s" median nl; StdoutFlush]).
        unfold add_events at 1. cbn [w_trace]. rewrite Hnew.
        unfold w0, add_events. cbn [w_trace].
        rewrite <- !List.app_assoc. split; [reflexivity |].
        apply quiet_split. apply quiet_app; [reflexivity |].
        clear -Hq. induction new as [|e new IH]; [exact I |].
        destruct e; cbn [quiet_after_timeout app] in *; try now apply IH.
        destruct Hq as [Hto Hq]. split; [| now apply IH].
        intros H. rewrite commands_app, (Hto H). reflexivity.
    + unfold run_query_experiment, bind. rewrite Hc. cbn [fst snd].
      exists ([Stdout (take 25 (query_descr query) +:+ " "); StdoutFlush] ++ new).
      rewrite Hnew. unfold w0, add_events. cbn [w_trace].
      rewrite <- List.app_assoc. split; [reflexivity |].
      apply quiet_split. now apply quiet_app.
    + unfold run_query_experiment, bind. rewrite Hc. cbn [fst snd].
      exists ([Stdout (take 25 (query_descr query) +:+ " "); StdoutFlush] ++ new).
      rewrite Hnew. unfold w0, add_events. cbn [w_trace].
      rewrite <- List.app_assoc. split; [reflexivity |].
      apply quiet_split. now apply quiet_app.
  - intros Hruns Hfirst.
    set (w0 := add_events w [Stdout (take 25 (query_descr query) +:+ " "); StdoutFlush]).
    pose proof (collect_results_unfold query runs true w) as Hc. fold w0 in Hc.
    destruct (Z.to_nat runs) as [|n] eqn:En; [lia |].
    cbn [measure_loop] in Hc. unfold bind in Hc.
    destruct (measure_query_run_cases w0) as (c & tail & Htr & Hcmd & _ & _ & Hto).
    specialize (Hto Hfirst).
    destruct (measure_query_run w0) as [o w1]. cbn [fst snd] in *. subst o.
    cbn [is_timeout andb app] in Hc.
    rewrite (run_query_experiment_median _ _ _ _ _ _ _ Hc).
    change (index (sort_results [TIMEOUT]) (len_list [TIMEOUT] / 2))
      with (@inr exn result TIMEOUT).
    cbn [fst snd]. split; [reflexivity |]. exists c.
    unfold add_events at 1. cbn [w_trace].
    rewrite Htr. unfold w0, add_events. cbn [w_trace].
    rewrite !commands_app, commands_shell, Hcmd.
    unfold commands at 2 4. cbn [shell_log flat_map map app].
    now rewrite !app_nil_r.
Qed.

Lemma hard_timeout_stops_runs_witness :
  fst (run_query_experiment sample_data sample_query 3 true
         (sample_world [timeout_output; timed_output "95.000"])) = Done TIMEOUT
  /\ exists command : string,
       commands (w_trace (snd (run_query_experiment sample_data sample_query 3 true
                                 (sample_world [timeout_output; timed_output "95.000"]))))
       = commands (w_trace (sample_world [timeout_output; timed_output "95.000"]))
         ++ [command].
Proof.
  apply (hard_timeout_stops_runs sample_data sample_query 3 true
           (sample_world [timeout_output; timed_output "95.000"]));
    [reflexivity | lia | reflexivity].
Defined.

End HardTimeoutFacts.

(** ** The whole run *)

Section RunFacts.
Import Py.

(** C1.  A run on one data set and two queries with the default settings
    (three runs, hard timeout), in which the first run of the first query
    times out: the database is dropped, created and loaded once, before the
    first query, and the command that follows the timed-out run is the run
    of the next query.  Nothing is dropped, created or loaded in between.
    The same holds inside one query when the hard timeout is off: the run
    after the TIMEOUT follows it directly. *)
Theorem no_reload_after_timeout :
  let w := sample_world [EmptyString; EmptyString; EmptyString; timeout_output;
                         timed_output "95.000"; timed_output "96.000";
                         timed_output "97.000"] in
  let run := run_experiments [sample_data]
               [mkQuery "TQ1" "naive" 1 10; mkQuery "TQ1" "windowed" 1 10]
               (mkParams None None None (Some "report")) w in
  fst run = Done tt
  /\ shell_log (w_trace (snd run))
     = [("dropdb -p 5433 --force --if-exists threshold 2>&1", EmptyString);
        ("createdb -p 5433 threshold 2>&1", EmptyString);
        ("psql -p 5433 -q -f load-script.sql threshold 2>&1", EmptyString);
        ("psql -p 5433 -o /dev/null -f query-script.sql threshold 2>&1", timeout_output);
        ("psql -p 5433 -o /dev/null -f query-script.sql threshold 2>&1",
         timed_output "95.000");
        ("psql -p 5433 -o /dev/null -f query-script.sql threshold 2>&1",
         timed_output "96.000");
        ("psql -p 5433 -o /dev/null -f query-script.sql threshold 2>&1",
         timed_output "97.000")]
  /\ shell_log (w_trace (snd (run_query_experiment sample_data sample_query 2 false
                                (sample_world [timeout_output; timed_output "95.000"]))))
     = [("psql -p 5433 -o /dev/null -f query-script.sql threshold 2>&1", timeout_output);
        ("psql -p 5433 -o /dev/null -f query-script.sql threshold 2>&1",
         timed_output "95.000")].
Proof. vm_compute. repeat split. Qed.

End RunFacts.

(** ** More about the PostgreSQL commands *)

Section CommandFacts.
Import Py.

Lemma commands_add_events (w : world) (new : list event) :
  commands (w_trace (add_events w new)) = commands (w_trace w) ++ commands new.
Proof. unfold add_events. cbn [w_trace]. apply commands_app. Qed.

Lemma commands_diagnostic (params : pg_params) (output : string) :
  commands (diagnostic params output) = [].
Proof. unfold diagnostic. now destruct (str_truthy _). Qed.

(** [postgres], step by step: one command is run and its output taken from
    the world; then the process stops or the output is returned. *)
Lemma postgres_outcome (command : string) (params : pg_params) (w : world) :
  let output := hd EmptyString (w_shell w) in
  let w1 := World (tl (w_shell w)) (w_graphs w) (w_now w) (w_files w)
                  (w_trace w ++ [Shell (command +:+ " 2>&1") output]) in
  postgres command params w
  = if error_reported output && negb (ignore_errors params)
    then (Exited 1, add_events w1 (diagnostic params output))
    else (Done output,
          add_events w1 (if verbose params || contains "WARNING:" output
                         then [Stdout (output +:+ nl)] else [])).
Proof.
  intros output w1. subst w1.
  unfold postgres, popen_read, bind, when, print, emit, error_reported, diagnostic,
    add_events, ret, exit.
  fold output. cbn [w_trace w_shell w_graphs w_now w_files].
  destruct (negb (contains PSQL_TIMEOUT_MSG output)
            && (contains "ERROR:" output || contains "FATAL:" output));
    destruct (ignore_errors params); cbn [negb andb];
    try destruct (str_truthy (msg_on_error params));
    try destruct (verbose params || contains "WARNING:" output);
    cbn [w_trace w_shell w_graphs w_now w_files app];
    rewrite <- ?List.app_assoc, ?app_nil_r; reflexivity.
Qed.

(** X1.  [postgres] runs exactly one command and takes exactly one output.
    It stops the process, with status 1, exactly when the output has an
    error or fatal marker, has no timeout message, and errors are not
    ignored; in every other case it returns the output.  It raises nothing
    and writes no file. *)
Theorem postgres_exit_iff (command : string) (params : pg_params) (w : world) :
  let output := hd EmptyString (w_shell w) in
  let run := postgres command params w in
  (fst run = Exited 1 <-> error_reported output = true /\ ignore_errors params = false)
  /\ (fst run = Exited 1 \/ fst run = Done output)
  /\ commands (w_trace (snd run)) = commands (w_trace w) ++ [command +:+ " 2>&1"]
  /\ w_shell (snd run) = tl (w_shell w)
  /\ w_files (snd run) = w_files w.
Proof.
  intros output run. subst run. rewrite postgres_outcome. fold output.
  destruct (error_reported output); destruct (ignore_errors params);
    cbn [negb andb fst snd]; rewrite commands_add_events;
    rewrite ?commands_diagnostic;
    try destruct (verbose params || contains "WARNING:" output);
    cbn [w_trace add_events w_shell w_files];
    rewrite commands_app, ?app_nil_r;
    (split; [split; [intros H; try discriminate H; now split
                    | intros [? ?]; congruence] |]);
    (split; [auto |]); repeat split; reflexivity.
Qed.

Lemma dropdb_command_eq :
  ("dropdb -p " +:+ fmt_i pg_port +:+ " --force --if-exists " +:+ db_name) +:+ " 2>&1"
  = dropdb_command.
Proof. reflexivity. Qed.

Lemma createdb_command_eq :
  ("createdb -p " +:+ fmt_i pg_port +:+ " " +:+ db_name) +:+ " 2>&1" = createdb_command.
Proof. reflexivity. Qed.

Lemma load_command_eq :
  ("psql -p " +:+ fmt_i pg_port +:+ " -q -f " +:+ load_script_file +:+ " " +:+ db_name)
  +:+ " 2>&1" = load_command.
Proof. reflexivity. Qed.

Lemma query_command_eq :
  ("psql -p " +:+ fmt_i pg_port +:+ " -o /dev/null -f " +:+ query_script_file +:+ " "
   +:+ db_name) +:+ " 2>&1" = query_command.
Proof. reflexivity. Qed.

Lemma commands_shell_nil (trace : list event) (command output : string) :
  commands trace = [] -> commands (trace ++ [Shell command output]) = [command].
Proof. intros H. now rewrite commands_app, H. Qed.

(** What [load_data] runs and how it ends. *)
Lemma load_data_steps (quiet : bool) (w : world) :
  let o1 := hd EmptyString (w_shell w) in
  let o2 := hd EmptyString (tl (w_shell w)) in
  let o3 := hd EmptyString (tl (tl (w_shell w))) in
  let run := load_data quiet w in
  commands (w_trace (snd run))
  = commands (w_trace w)
    ++ (if error_reported o1 then [dropdb_command]
        else if error_reported o2 then [dropdb_command; createdb_command]
        else [dropdb_command; createdb_command; load_command])
  /\ fst run = (if error_reported o1 || error_reported o2 || error_reported o3
                then Exited 1 else Done tt)
  /\ w_files (snd run) = w_files w.
Proof.
  intros o1 o2 o3 run. subst run.
  unfold load_data, bind, when, print_end, print, flush_stdout, emit, ret.
  destruct quiet; cbn [negb];
    rewrite postgres_outcome; cbn [add_events w_shell w_trace w_files w_graphs w_now];
    fold o1; destruct (error_reported o1);
    cbn [andb negb orb ignore_errors verbose fst snd];
    rewrite ?dropdb_command_eq;
    try (rewrite commands_add_events, commands_diagnostic, app_nil_r;
         cbn [w_trace]; rewrite !commands_app; cbn [commands shell_log flat_map map app];
         rewrite ?app_nil_r; now repeat split);
    destruct (contains "WARNING:" o1);
    rewrite postgres_outcome; cbn [add_events w_shell w_trace w_files w_graphs w_now];
    fold o2; destruct (error_reported o2);
    cbn [andb negb orb ignore_errors verbose fst snd];
    rewrite ?createdb_command_eq;
    try (rewrite commands_add_events, commands_diagnostic, app_nil_r;
         cbn [w_trace]; rewrite !commands_app; cbn [commands shell_log flat_map map app];
         rewrite ?app_nil_r, <- ?List.app_assoc; now repeat split);
    destruct (contains "WARNING:" o2);
    rewrite postgres_outcome; cbn [add_events w_shell w_trace w_files w_graphs w_now];
    fold o3; destruct (error_reported o3);
    cbn [andb negb orb ignore_errors verbose fst snd];
    rewrite ?load_command_eq;
    try destruct (contains "WARNING:" o3);
    cbn [add_events w_shell w_trace w_files w_graphs w_now fst snd];
    rewrite ?commands_add_events, ?commands_diagnostic; cbn [w_trace];
    rewrite !commands_app; cbn [commands shell_log flat_map map app];
    rewrite ?app_nil_r, <- ?List.app_assoc; now repeat split.
Qed.

(** X2.  [load_data] runs dropdb (forced), createdb and the load script, in
    this order, and stops the process at the first of them that reports an
    error: the commands after it are not run.  It succeeds exactly when none
    of the three outputs reports one, and it writes no file. *)
Theorem load_data_commands (quiet : bool) (w : world) :
  let o1 := hd EmptyString (w_shell w) in
  let o2 := hd EmptyString (tl (w_shell w)) in
  let o3 := hd EmptyString (tl (tl (w_shell w))) in
  let run := load_data quiet w in
  commands (w_trace (snd run))
  = commands (w_trace w)
    ++ (if error_reported o1 then [dropdb_command]
        else if error_reported o2 then [dropdb_command; createdb_command]
        else [dropdb_command; createdb_command; load_command])
  /\ fst run = (if error_reported o1 || error_reported o2 || error_reported o3
                then Exited 1 else Done tt)
  /\ w_files (snd run) = w_files w.
Proof. exact (load_data_steps quiet w). Qed.

End CommandFacts.

(** ** More about the timed runs *)

Section RunCountFacts.
Import Py.

(** What one timed run runs and how it ends. *)
Lemma measure_query_run_steps (w : world) :
  let output := hd EmptyString (w_shell w) in
  let run := measure_query_run w in
  commands (w_trace (snd run)) = commands (w_trace w) ++ [query_command]
  /\ w_shell (snd run) = tl (w_shell w)
  /\ w_files (snd run) = w_files w
  /\ fst run = (if error_reported output then Exited 1
                else match parse_psql_output output with
                     | inr time => Done time
                     | inl e => Raised e
                     end).
Proof.
  intros output run. subst run.
  unfold measure_query_run, bind. rewrite postgres_outcome, query_command_eq.
  fold output. unfold pg_defaults. cbn [ignore_errors verbose negb orb].
  rewrite andb_true_r.
  destruct (error_reported output).
  - cbn [fst snd]. rewrite commands_add_events, commands_diagnostic.
    cbn [add_events w_trace w_shell w_files]. rewrite commands_app, app_nil_r.
    now repeat split.
  - unfold lift, raise, ret, emit, flush_stdout, emit.
    destruct (contains "WARNING:" output);
      destruct (parse_psql_output output) as [e|time];
      cbn [fst snd add_events w_trace w_shell w_files];
      rewrite !commands_app; cbn [commands shell_log flat_map map app];
      rewrite ?app_nil_r; now repeat split.
Qed.

(** X3.  One timed run issues the query command, once, whatever comes of
    it, and takes one output.  The process stops when the output reports an
    error; otherwise the run yields what the output parses to, and an output
    that parses to nothing raises the ValueError of [float]. *)
Theorem measure_query_run_outcome (w : world) :
  let output := hd EmptyString (w_shell w) in
  let run := measure_query_run w in
  commands (w_trace (snd run)) = commands (w_trace w) ++ [query_command]
  /\ w_shell (snd run) = tl (w_shell w)
  /\ w_files (snd run) = w_files w
  /\ fst run = (if error_reported output then Exited 1
                else match parse_psql_output output with
                     | inr time => Done time
                     | inl e => Raised e
                     end).
Proof. exact (measure_query_run_steps w). Qed.

(** The loop: as many results are added as commands are run, none but the
    query command, and not more than [n] of them. *)
Lemma measure_loop_commands (n : nat) (hard_timeout : bool) :
  forall (results : list result) (w : world),
  exists k : nat,
    (k <= n)%nat
    /\ commands (w_trace (snd (measure_loop n hard_timeout results w)))
       = commands (w_trace w) ++ replicate k query_command
    /\ w_files (snd (measure_loop n hard_timeout results w)) = w_files w
    /\ (forall results',
          fst (measure_loop n hard_timeout results w) = Done results' ->
          exists new, results' = results ++ new /\ length new = k
                      /\ (hard_timeout = false -> k = n)).
Proof.
  induction n as [|n IH]; intros results w.
  - exists O. cbn [measure_loop ret fst snd replicate].
    rewrite app_nil_r. repeat split; [lia |].
    intros results' [= <-]. exists []. now rewrite app_nil_r.
  - cbn [measure_loop]. unfold bind.
    destruct (measure_query_run_steps w) as (Hcmd & _ & Hfiles & Hout).
    destruct (measure_query_run w) as [[r|e|status] w1]; cbn [fst snd] in *.
    + destruct (is_timeout r && hard_timeout) eqn:Estop.
      * exists 1%nat. cbn [ret fst snd replicate]. repeat split; [lia | assumption..|].
        intros results' [= <-]. exists [r]. repeat split.
        apply andb_true_iff in Estop as [_ ->]. discriminate.
      * destruct (IH (results ++ [r]) w1) as (k & Hk & Hc & Hf & Hres).
        exists (S k). rewrite Hc, Hcmd, Hf, Hfiles, <- List.app_assoc.
        repeat split; [lia |].
        intros results' Hdone. destruct (Hres results' Hdone) as (new & -> & Hlen & Hn).
        exists (r :: new). rewrite <- List.app_assoc. cbn [app length].
        repeat split; [lia |]. intros Hh. now rewrite (Hn Hh).
    + exists 1%nat. cbn [replicate]. repeat split; [lia | assumption..|]. discriminate.
    + exists 1%nat. cbn [replicate]. repeat split; [lia | assumption..|]. discriminate.
Qed.

(** What [run_query_experiment] runs. *)
Lemma run_query_experiment_steps (data : Data) (query : Query) (runs : Z)
    (hard_timeout : bool) (w : world) :
  let run := run_query_experiment data query runs hard_timeout w in
  exists k : nat,
    (k <= Z.to_nat runs)%nat
    /\ commands (w_trace (snd run)) = commands (w_trace w) ++ replicate k query_command
    /\ w_files (snd run) = w_files w.
Proof.
  intros run. subst run.
  set (w0 := add_events w [Stdout (take 25 (query_descr query) +:+ " "); StdoutFlush]).
  destruct (measure_loop_commands (Z.to_nat runs) hard_timeout [] w0)
    as (k & Hk & Hc & Hf & _).
  pose proof (collect_results_unfold query runs hard_timeout w) as Hcoll. fold w0 in Hcoll.
  exists k. split; [assumption |].
  assert (Hw0 : commands (w_trace w0) = commands (w_trace w)).
  { unfold w0. rewrite commands_add_events. apply app_nil_r. }
  destruct (measure_loop (Z.to_nat runs) hard_timeout [] w0) as [[results|e|status] w1];
    cbn [fst snd] in *.
  - rewrite (run_query_experiment_median _ _ _ _ _ _ _ Hcoll).
    destruct (index (sort_results results) (len_list results / 2)); cbn [fst snd].
    + now rewrite Hc, Hw0, Hf.
    + rewrite commands_add_events, Hc, Hw0. cbn [add_events w_files].
      rewrite Hf. split; [apply app_nil_r | reflexivity].
  - unfold run_query_experiment, bind. rewrite Hcoll. cbn [fst snd].
    now rewrite Hc, Hw0, Hf.
  - unfold run_query_experiment, bind. rewrite Hcoll. cbn [fst snd].
    now rewrite Hc, Hw0, Hf.
Qed.

(** X4.  Whatever the world answers, [run_query_experiment] runs only the
    query command, at most [runs] times, and writes no file; in particular
    it never drops, creates or loads the database. *)
Theorem run_query_experiment_commands (data : Data) (query : Query) (runs : Z)
    (hard_timeout : bool) (w : world) :
  let run := run_query_experiment data query runs hard_timeout w in
  exists k : nat,
    (k <= Z.to_nat runs)%nat
    /\ commands (w_trace (snd run)) = commands (w_trace w) ++ replicate k query_command
    /\ w_files (snd run) = w_files w.
Proof. exact (run_query_experiment_steps data query runs hard_timeout w). Qed.

(** X5.  With the hard timeout off and every run completing, exactly
    [runs] runs are made and collected, one result for each. *)
Theorem collect_results_all_runs (query : Query) (runs : Z) (w w' : world)
    (results : list result) :
  collect_results query runs false w = (Done results, w') ->
  length results = Z.to_nat runs
  /\ commands (w_trace w') = commands (w_trace w) ++ replicate (Z.to_nat runs) query_command.
Proof.
  intros H. rewrite collect_results_unfold in H.
  set (w0 := add_events w [Stdout (take 25 (query_descr query) +:+ " "); StdoutFlush]) in *.
  destruct (measure_loop_commands (Z.to_nat runs) false [] w0) as (k & _ & Hc & _ & Hres).
  rewrite H in Hc, Hres. cbn [fst snd] in *.
  destruct (Hres results eq_refl) as (new & -> & Hlen & Hk).
  specialize (Hk eq_refl). subst k. cbn [app]. split; [exact Hk |].
  rewrite Hc, Hk. unfold w0. rewrite commands_add_events. now rewrite app_nil_r.
Qed.

Lemma collect_results_all_runs_witness :
  length [Time 2; Time 1] = Z.to_nat 2
  /\ commands (w_trace (snd (collect_results sample_query 2 false
                               (sample_world [timed_output "2.000"; timed_output "1.000"]))))
     = commands (w_trace (sample_world [timed_output "2.000"; timed_output "1.000"]))
       ++ replicate (Z.to_nat 2) query_command.
Proof.
  eapply (collect_results_all_runs sample_query 2
            (sample_world [timed_output "2.000"; timed_output "1.000"])).
  vm_compute. reflexivity.
Defined.

(** X6.  With [runs] zero or negative no run is made and the median of
    nothing is asked for: the function prints the query's label and raises
    IndexError. *)
Theorem run_query_experiment_no_runs (data : Data) (query : Query) (runs : Z)
    (hard_timeout : bool) (w : world) :
  runs <= 0 ->
  run_query_experiment data query runs hard_timeout w
  = (Raised (IndexError "list index out of range"),
     add_events w [Stdout (take 25 (query_descr query) +:+ " "); StdoutFlush]).
Proof.
  intros Hruns.
  rewrite (run_query_experiment_median data query runs hard_timeout w
             (add_events w [Stdout (take 25 (query_descr query) +:+ " "); StdoutFlush]) []).
  - reflexivity.
  - rewrite collect_results_unfold. now replace (Z.to_nat runs) with O by lia.
Qed.

Lemma run_query_experiment_no_runs_witness :
  run_query_experiment sample_data sample_query 0 true (sample_world [])
  = (Raised (IndexError "list index out of range"),
     add_events (sample_world [])
       [Stdout (take 25 (query_descr sample_query) +:+ " "); StdoutFlush]).
Proof. apply run_query_experiment_no_runs. lia. Defined.

End RunCountFacts.

(** ** More about the median *)

Section MedianMoreFacts.
Import Py.








Lemma parse_psql_output_error (s : string) (e : exn) :
  parse_psql_output s = inl e -> e = ValueError "could not convert string to float".
Proof.
  unfold parse_psql_output, float.
  destruct (contains PSQL_TIMEOUT_MSG s); [discriminate |].
  destruct (Float.parse _); [discriminate | congruence].
Qed.

(** How the loop can end: with results, at least one more than it started
    with if it was to run at all; with the ValueError of a run; or with the
    exit of a run. *)
Lemma measure_loop_outcome (n : nat) (hard_timeout : bool) :
  forall (results : list result) (w : world),
    match fst (measure_loop n hard_timeout results w) with
    | Done results' => (Nat.min 1 n + length results <= length results')%nat
    | Raised e => e = ValueError "could not convert string to float"
    | Exited status => status = 1
    end.
Proof.
  induction n as [|n IH]; intros results w; [cbn; lia |].
  cbn [measure_loop]. unfold bind.
  destruct (measure_query_run_steps w) as (_ & _ & _ & Hout).
  destruct (measure_query_run w) as [[r|e|status] w1]; cbn [fst snd] in *.
  - destruct (is_timeout r && hard_timeout).
    + cbn [ret fst]. rewrite length_app. cbn [length]. lia.
    + specialize (IH (results ++ [r]) w1).
      destruct (fst (measure_loop n hard_timeout (results ++ [r]) w1)); try assumption.
      rewrite length_app in IH. cbn [length] in IH. lia.
  - destruct (error_reported _); [discriminate |].
    destruct (parse_psql_output _) eqn:E; [| discriminate].
    injection Hout as <-. now apply parse_psql_output_error in E.
  - destruct (error_reported _); [congruence |].
    destruct (parse_psql_output _); discriminate.
Qed.

(** X8.  With at least one run asked for, [run_query_experiment] ends in
    one of three ways: it returns one of the results it collected (never a
    value in between, and never an IndexError); a run exits the process with
    status 1; or a run's output parses to no number and the ValueError of
    [float] comes out uncaught. *)
Theorem run_query_experiment_outcome (data : Data) (query : Query) (runs : Z)
    (hard_timeout : bool) (w : world) :
  1 <= runs ->
  match fst (run_query_experiment data query runs hard_timeout w) with
  | Done median =>
      exists (results : list result) (w' : world),
        collect_results query runs hard_timeout w = (Done results, w')
        /\ median ∈ results
  | Raised e => e = ValueError "could not convert string to float"
  | Exited status => status = 1
  end.
Proof.
  intros Hruns.
  pose proof (collect_results_unfold query runs hard_timeout w) as Hc.
  pose proof (measure_loop_outcome (Z.to_nat runs) hard_timeout []
                (add_events w [Stdout (take 25 (query_descr query) +:+ " ");
                               StdoutFlush])) as Hout.
  rewrite <- Hc in Hout.
  destruct (collect_results query runs hard_timeout w) as [[results|e|status] w1] eqn:E;
    cbn [fst] in Hout.
  - rewrite (run_query_experiment_median _ _ _ _ _ _ _ E).
    cbn [length] in Hout.
    assert (Hlen : 1 <= len_list results) by (unfold len_list; lia).
    assert (Hhalf : 0 <= len_list results / 2 < len_list results).
    { split; [apply Z.div_pos; lia | apply Z.div_lt; lia]. }
    destruct (lookup_lt_is_Some_2 (sort_results results)
                (Z.to_nat (len_list results / 2))) as [median Hm].
    { pose proof (sort_results_length results). unfold len_list in *. lia. }
    unfold index. rewrite Hm. cbn [fst]. exists results, w1. split; [reflexivity |].
    rewrite <- (sort_results_perm results). eapply list_elem_of_lookup_2, Hm.
  - unfold run_query_experiment, bind. now rewrite E.
  - unfold run_query_experiment, bind. now rewrite E.
Qed.

Lemma run_query_experiment_outcome_witness :
  match fst (run_query_experiment sample_data sample_query 3 true
               (sample_world [timed_output "12.000"; "Time: soon ms"])) with
  | Done median =>
      exists (results : list result) (w' : world),
        collect_results sample_query 3 true
          (sample_world [timed_output "12.000"; "Time: soon ms"]) = (Done results, w')
        /\ median ∈ results
  | Raised e => e = ValueError "could not convert string to float"
  | Exited status => status = 1
  end.
Proof. apply run_query_experiment_outcome. lia. Defined.

End MedianMoreFacts.

(** ** Files *)

Section FileFacts.
Import Py.

Lemma open_w_eq (file : string) (w : world) :
  open_w file w = (Done tt, set_file w file EmptyString).
Proof. reflexivity. Qed.

Lemma write_eq (file text : string) (w : world) :
  write file text w = (Done tt, append_file w file text).
Proof. reflexivity. Qed.

Lemma file_content_set (w : world) (file content : string) :
  file_content (set_file w file content) file = content.
Proof. unfold file_content, set_file. cbn [w_files]. now rewrite lookup_insert_eq. Qed.

Lemma set_file_set (w : world) (file a b : string) :
  set_file (set_file w file a) file b = set_file w file b.
Proof. unfold set_file. cbn [w_files w_shell w_graphs w_now w_trace]. now rewrite insert_insert_eq. Qed.

Lemma append_file_set (w : world) (file a b : string) :
  append_file (set_file w file a) file b = set_file w file (a +:+ b).
Proof. unfold append_file. now rewrite file_content_set, set_file_set. Qed.

Lemma lookup_set_file (w : world) (file content other : string) :
  w_files (set_file w file content) !! other
  = if decide (file = other) then Some content else w_files w !! other.
Proof. unfold set_file. cbn [w_files]. apply lookup_insert. Qed.

End FileFacts.

(** ** More about the query script *)

Section ScriptFacts.
Import Py.

Lemma query_constructors_unknown (kind : string) :
  kind <> "TQ1" -> kind <> "TQ2" -> kind <> "TQ3" -> query_constructors !! kind = None.
Proof.
  intros H1 H2 H3. unfold query_constructors.
  rewrite !lookup_insert_ne by congruence. now apply lookup_singleton_ne.
Qed.

(** X9.  [prepare_query] looks the generator up before it opens the script
    file: a class that is not TQ1, TQ2 or TQ3 is a KeyError on the class,
    and for a known class a method that is not naive or windowed is a
    KeyError on the method.  In both cases nothing was written or printed. *)
Theorem prepare_query_unknown (query : Query) (timeout : option Z) (w : world) :
  (q_kind query <> "TQ1" -> q_kind query <> "TQ2" -> q_kind query <> "TQ3" ->
   prepare_query query timeout w = (Raised (KeyError (q_kind query)), w))
  /\ (q_kind query = "TQ1" \/ q_kind query = "TQ2" \/ q_kind query = "TQ3" ->
      q_method query <> "naive" -> q_method query <> "windowed" ->
      prepare_query query timeout w = (Raised (KeyError (q_method query)), w)).
Proof.
  unfold prepare_query, construct_query, bind, subscript. split.
  - intros H1 H2 H3. now rewrite query_constructors_unknown.
  - intros Hkind Hn Hw.
    assert (exists by_method : gmap string (Z -> Z -> string),
              query_constructors !! q_kind query = Some by_method
              /\ by_method !! q_method query = None) as (by_method & -> & Hm).
    { destruct Hkind as [-> | [-> | ->]]; eexists; (split; [reflexivity |]);
        rewrite !lookup_insert_ne by congruence; now apply lookup_singleton_ne. }
    cbn [lift ret]. now rewrite Hm.
Qed.

Lemma prepare_query_unknown_witness :
  prepare_query (mkQuery "TQ4" "naive" 1 10) (Some 1800000) (sample_world [])
  = (Raised (KeyError "TQ4"), sample_world [])
  /\ prepare_query (mkQuery "TQ2" "window" 1 10) (Some 1800000) (sample_world [])
     = (Raised (KeyError "window"), sample_world []).
Proof.
  split.
  - apply (prepare_query_unknown (mkQuery "TQ4" "naive" 1 10)); discriminate.
  - apply (prepare_query_unknown (mkQuery "TQ2" "window" 1 10));
      [right; left; reflexivity | discriminate | discriminate].
Defined.

(** X10.  For a class and method of the table, [prepare_query] replaces the
    query script, whatever it held, by the parallelism directive, the timeout
    directive, the timing switch and the text of the generator for length
    [k + 1]; a timeout of 0 or None leaves the timeout directive out.  No
    other file changes, and nothing is run or printed. *)
Theorem prepare_query_script (query : Query) (timeout : option Z) (w : world)
    (constructor : Z -> Z -> string) :
  query_constructors !! q_kind query ≫= (.!! q_method query) = Some constructor ->
  prepare_query query timeout w
  = (Done tt,
     set_file w query_script_file
       (query_script timeout (constructor (q_k query + 1) (q_threshold query)))).
Proof.
  intros H. unfold prepare_query, construct_query, bind, subscript.
  destruct (query_constructors !! q_kind query) as [by_method|]; [| discriminate].
  cbn [mbind option_bind] in H. cbn [lift ret]. rewrite H. cbn [lift ret].
  unfold when, query_script.
  rewrite open_w_eq, write_eq, append_file_set.
  destruct (truthy_Z timeout); cbn [ret];
    rewrite ?write_eq, ?append_file_set, ?write_eq, ?append_file_set, ?write_eq,
      ?append_file_set;
    now rewrite ?append_assoc, ?append_nil_l.
Qed.

Lemma prepare_query_script_witness :
  prepare_query (mkQuery "TQ1" "naive" 1 10) (Some 0)
    (set_file (sample_world []) query_script_file "SELECT 1;")
  = (Done tt,
     set_file (set_file (sample_world []) query_script_file "SELECT 1;") query_script_file
       (query_script (Some 0) (prep_path_naiv_query (1 + 1) 10))).
Proof. apply (prepare_query_script (mkQuery "TQ1" "naive" 1 10)). reflexivity. Defined.

End ScriptFacts.

(** ** Preparing the data *)

Section DataFacts.
Import Py.

Lemma range_length (a b : Z) : len_list (range a b) = Z.max 0 (b - a).
Proof. unfold len_list, range. rewrite length_map, length_seq. lia. Qed.

Lemma concat_app (a b : list string) : concat (a ++ b) = concat a +:+ concat b.
Proof.
  unfold concat. induction a as [|x a IH]; [reflexivity |].
  cbn [app foldr]. now rewrite IH, append_assoc.
Qed.

(** Writing to one file does not disturb another that was set before. *)
Lemma append_file_other (w : world) (file other content text : string) :
  file <> other ->
  append_file (set_file w other content) file text
  = set_file (append_file w file text) other content.
Proof.
  intros Hne. unfold append_file, set_file, file_content.
  cbn [w_files w_shell w_graphs w_now w_trace].
  rewrite lookup_insert_ne by congruence.
  now rewrite insert_insert_ne by congruence.
Qed.

(** A loop that writes one line for each item and counts the items. *)
Lemma fold_M_write_lines {A} (file : string) (line : A -> string) (items : list A) :
  forall (m : Z) (w : world) (content : string),
    fold_M items m (fun x m => write file (line x);; ret (m + 1))
      (set_file w file content)
    = (Done (m + len_list items),
       set_file w file (content +:+ concat (map line items))).
Proof.
  induction items as [|x items IH]; intros m w content.
  - cbn. now rewrite Z.add_0_r, append_nil_r.
  - cbn [fold_M]. unfold bind at 1. unfold bind at 1.
    rewrite write_eq, append_file_set. cbn [ret].
    rewrite IH. unfold len_list. cbn [length map concat foldr].
    rewrite append_assoc. f_equal. f_equal. lia.
Qed.

Lemma fold_M_write_rows (file : string) (line : Z -> Z -> string) (cols : list Z)
    (rows : list Z) :
  forall (m : Z) (w : world) (content : string),
    fold_M rows m (fun i m =>
      fold_M cols m (fun j m => write file (line i j);; ret (m + 1)))
      (set_file w file content)
    = (Done (m + len_list rows * len_list cols),
       set_file w file
         (content +:+ concat (map (fun i => concat (map (line i) cols)) rows))).
Proof.
  induction rows as [|i rows IH]; intros m w content.
  - cbn. now rewrite Z.add_0_r, append_nil_r.
  - cbn [fold_M]. unfold bind at 1.
    rewrite (fold_M_write_lines file (line i) cols). rewrite IH.
    unfold len_list. cbn [length map concat foldr].
    rewrite append_assoc. f_equal. f_equal. lia.
Qed.

Lemma bind_done {A B} (c : M A) (k : A -> M B) (w w' : world) (a : A) :
  c w = (Done a, w') -> bind c k w = k a w'.
Proof. intros H. unfold bind. now rewrite H. Qed.

(** Writing the load script while the edge file is open. *)
Lemma write_script_under (w : world) (c d t : string) :
  write load_script_file t (set_file (set_file w load_script_file c) r_file d)
  = (Done tt, set_file (set_file w load_script_file (c +:+ t)) r_file d).
Proof.
  rewrite write_eq, append_file_other, append_file_set by discriminate. reflexivity.
Qed.

Lemma write_copy_script_under (w : world) (c d : string) :
  write_copy_script load_script_file
    (set_file (set_file w load_script_file c) r_file d)
  = (Done tt, set_file (set_file w load_script_file (c +:+ copy_script_text)) r_file d).
Proof.
  unfold write_copy_script.
  do 2 (erewrite bind_done by apply write_script_under).
  rewrite write_script_under. unfold copy_script_text. now rewrite !append_assoc.
Qed.

Lemma when_indexes_under (indexed : bool) (w : world) (c d : string) :
  when indexed (write_indexes load_script_file)
    (set_file (set_file w load_script_file c) r_file d)
  = (Done tt, set_file (set_file w load_script_file (c +:+ index_text indexed)) r_file d).
Proof.
  destruct indexed; cbn [when index_text].
  - unfold write_indexes.
    do 2 (erewrite bind_done by apply write_script_under).
    rewrite write_script_under. now rewrite !append_assoc.
  - unfold ret. now rewrite append_nil_r.
Qed.

(** X11.  [generate_full_graph] on [n] nodes writes the copy script (with
    the indexes when the data set is indexed) and an edge file with the
    [n * n] pairs, row by row, and sets [data['m']] to [n * n]; with [n]
    zero or negative the edge file is empty and [m] is 0. *)
Theorem generate_full_graph_result (data : Data) (n : Z) (w : world) :
  d_n data = Some n ->
  generate_full_graph data w
  = (Done (set_m data (Z.max 0 n * Z.max 0 n)),
     add_events
       (set_file
          (set_file (add_events w [StdoutFlush]) load_script_file
             (load_script_text (bool_truthy (d_indexed data))))
          r_file (full_graph_lines n))
       [Stdout ("done" +:+ nl); StdoutFlush]).
Proof.
  intros Hn. unfold generate_full_graph.
  erewrite bind_done by (rewrite Hn; reflexivity).
  erewrite bind_done by reflexivity.
  erewrite bind_done by apply open_w_eq.
  erewrite bind_done by apply open_w_eq.
  erewrite bind_done by apply write_copy_script_under.
  erewrite bind_done by apply when_indexes_under.
  erewrite bind_done by apply write_script_under.
  erewrite bind_done
    by apply (fold_M_write_rows r_file (fun i j => edge_line (i, j))).
  erewrite bind_done by reflexivity.
  erewrite bind_done by reflexivity.
  unfold ret. rewrite add_events_add, !range_length, Z.sub_0_r.
  unfold load_script_text, full_graph_lines.
  now rewrite !append_nil_l, !append_assoc.
Qed.

Lemma generate_full_graph_result_witness :
  generate_full_graph sample_data (sample_world [])
  = (Done (set_m sample_data (Z.max 0 1 * Z.max 0 1)),
     add_events
       (set_file
          (set_file (add_events (sample_world []) [StdoutFlush]) load_script_file
             (load_script_text (bool_truthy (d_indexed sample_data))))
          r_file (full_graph_lines 1))
       [Stdout ("done" +:+ nl); StdoutFlush]).
Proof. apply generate_full_graph_result. reflexivity. Defined.

Lemma bind_raised {A B} (c : M A) (k : A -> M B) (w w' : world) (e : exn) :
  c w = (Raised e, w') -> bind c k w = (Raised e, w').
Proof. intros H. unfold bind. now rewrite H. Qed.

Lemma bind_exited {A B} (c : M A) (k : A -> M B) (w w' : world) (status : Z) :
  c w = (Exited status, w') -> bind c k w = (Exited status, w').
Proof. intros H. unfold bind. now rewrite H. Qed.

(** X12.  [generate_barabasi_albert_data] writes the copy script and one
    line of the edge file for each edge of the graph it draws, in the order
    of the edges, and sets [data['m']] to their number. *)
Theorem generate_barabasi_albert_data_result (data : Data) (n m0 : Z) (indexed : bool)
    (w : world) :
  d_n data = Some n -> d_m0 data = Some m0 -> d_indexed data = Some indexed ->
  let edges := hd [] (w_graphs w) in
  generate_barabasi_albert_data data w
  = (Done (set_m data (len_list edges)),
     add_events
       (set_file
          (set_file (drop_graph (add_events w [StdoutFlush])) load_script_file
             (load_script_text indexed))
          r_file (concat (map edge_line edges)))
       [Stdout ("done" +:+ nl); StdoutFlush]).
Proof.
  intros Hn Hm0 Hidx edges. unfold generate_barabasi_albert_data.
  erewrite bind_done by (rewrite Hn; reflexivity).
  erewrite bind_done by (rewrite Hm0; reflexivity).
  erewrite bind_done by reflexivity.
  erewrite bind_done by apply open_w_eq.
  erewrite bind_done by apply open_w_eq.
  erewrite bind_done by apply write_copy_script_under.
  erewrite bind_done by (rewrite Hidx; reflexivity).
  erewrite bind_done by apply when_indexes_under.
  erewrite bind_done by apply write_script_under.
  erewrite bind_done by reflexivity.
  erewrite bind_done
    by apply (fold_M_write_lines r_file edge_line (hd [] (w_graphs w)) 0
                (set_file (drop_graph (add_events w [StdoutFlush])) load_script_file _)).
  erewrite bind_done by reflexivity.
  erewrite bind_done by reflexivity.
  unfold ret. rewrite add_events_add. unfold load_script_text. fold edges.
  now rewrite !append_nil_l, !append_assoc.
Qed.

Lemma generate_barabasi_albert_data_result_witness :
  generate_barabasi_albert_data
    (mkData "ba" (Some 3) (Some 1) None None (Some true) None None)
    (World [] [[(0, 1); (0, 2)]] "report-04.11.2026-12-00-00" ∅ [])
  = (Done (set_m (mkData "ba" (Some 3) (Some 1) None None (Some true) None None)
                 (len_list [(0, 1); (0, 2)])),
     add_events
       (set_file
          (set_file
             (drop_graph
                (add_events (World [] [[(0, 1); (0, 2)]] "report-04.11.2026-12-00-00" ∅ [])
                            [StdoutFlush]))
             load_script_file (load_script_text true))
          r_file (concat (map edge_line [(0, 1); (0, 2)])))
       [Stdout ("done" +:+ nl); StdoutFlush]).
Proof.
  apply (generate_barabasi_albert_data_result
           (mkData "ba" (Some 3) (Some 1) None None (Some true) None None) 3 1 true);
    reflexivity.
Defined.

(** X13.  Unlike the two other kinds, a Barabasi-Albert data set must have
    the key 'indexed': without it the generator raises KeyError, after it
    has emptied the edge file and written the first three lines of the load
    script. *)
Theorem generate_barabasi_albert_data_unindexed (data : Data) (n m0 : Z) (w : world) :
  d_n data = Some n -> d_m0 data = Some m0 -> d_indexed data = None ->
  generate_barabasi_albert_data data w
  = (Raised (KeyError "indexed"),
     set_file
       (set_file (add_events w [StdoutFlush]) load_script_file copy_script_text)
       r_file EmptyString).
Proof.
  intros Hn Hm0 Hidx. unfold generate_barabasi_albert_data.
  erewrite bind_done by (rewrite Hn; reflexivity).
  erewrite bind_done by (rewrite Hm0; reflexivity).
  erewrite bind_done by reflexivity.
  erewrite bind_done by apply open_w_eq.
  erewrite bind_done by apply open_w_eq.
  erewrite bind_done by apply write_copy_script_under.
  erewrite bind_raised by (rewrite Hidx; reflexivity).
  now rewrite append_nil_l.
Qed.

Lemma generate_barabasi_albert_data_unindexed_witness :
  generate_barabasi_albert_data
    (mkData "ba" (Some 3) (Some 1) None None None None None) (sample_world [])
  = (Raised (KeyError "indexed"),
     set_file
       (set_file (add_events (sample_world []) [StdoutFlush]) load_script_file
          copy_script_text)
       r_file EmptyString).
Proof.
  apply (generate_barabasi_albert_data_unindexed
           (mkData "ba" (Some 3) (Some 1) None None None None None) 3 1);
    reflexivity.
Defined.

Lemma write_one_file (w : world) (file c t : string) :
  write file t (set_file w file c) = (Done tt, set_file w file (c +:+ t)).
Proof. now rewrite write_eq, append_file_set. Qed.

(** X14.  For IMDb data without link types [prepare_imdb_data] stores the
    29997 edges of 'all' under [data['n']] and leaves [data['m']] as it
    was; the load script it writes selects every row of MOVIE_LINK, with no
    WHERE clause. *)
Theorem prepare_imdb_data_all (data : Data) (w : world) :
  links_truthy (d_link_types data) = false ->
  prepare_imdb_data data w
  = (Done (set_n data 29997),
     add_events
       (set_file w load_script_file (imdb_script_text (bool_truthy (d_indexed data))))
       [Stdout ("done" +:+ nl); StdoutFlush]).
Proof.
  intros Hlinks. unfold prepare_imdb_data.
  erewrite bind_done by (unfold calc_imdb_size; rewrite Hlinks; reflexivity).
  erewrite bind_done by apply open_w_eq.
  do 7 (erewrite bind_done by apply write_one_file).
  rewrite Hlinks. erewrite bind_done by reflexivity.
  do 2 (erewrite bind_done by apply write_one_file).
  change (d_indexed (set_n data 29997)) with (d_indexed data).
  assert (Hwhen : forall c,
    when (bool_truthy (d_indexed data)) (write_indexes load_script_file)
      (set_file w load_script_file c)
    = (Done tt,
       set_file w load_script_file (c +:+ index_text (bool_truthy (d_indexed data))))).
  { intros c. destruct (bool_truthy (d_indexed data)); cbn [when index_text].
    - unfold write_indexes. do 2 (erewrite bind_done by apply write_one_file).
      rewrite write_one_file. now rewrite !append_assoc.
    - unfold ret. now rewrite append_nil_r. }
  erewrite bind_done by apply Hwhen.
  erewrite bind_done by apply write_one_file.
  erewrite bind_done by reflexivity.
  erewrite bind_done by reflexivity.
  unfold ret. rewrite add_events_add. unfold imdb_script_text.
  now rewrite !append_nil_l, !append_assoc.
Qed.

Lemma prepare_imdb_data_all_witness :
  prepare_imdb_data (mkData "imdb" None None None None (Some true) (Some 3) None)
    (sample_world [])
  = (Done (set_n (mkData "imdb" None None None None (Some true) (Some 3) None) 29997),
     add_events
       (set_file (sample_world []) load_script_file
          (imdb_script_text
             (bool_truthy
                (d_indexed (mkData "imdb" None None None None (Some true) (Some 3) None)))))
       [Stdout ("done" +:+ nl); StdoutFlush]).
Proof. apply prepare_imdb_data_all. reflexivity. Defined.

(** X15.  [prepare_data] on IMDb data with a non-empty collection of link
    types raises the TypeError of [calc_imdb_size] while it builds the
    description: nothing is printed and no file is written. *)
Theorem prepare_data_imdb_link_types (data : Data) (w : world) :
  d_kind data = "imdb" ->
  links_truthy (d_link_types data) = true ->
  prepare_data data w = (Raised (TypeError "'dict' object is not callable"), w).
Proof.
  intros Hkind Hlinks. unfold prepare_data.
  erewrite bind_raised; [reflexivity |].
  unfold descr_data. rewrite Hkind. cbn [String.eqb Ascii.eqb Bool.eqb].
  erewrite bind_raised; [reflexivity |].
  erewrite bind_raised; [reflexivity |].
  unfold calc_imdb_size. rewrite Hlinks.
  destruct (d_link_types data) as [[|t rest]|]; try discriminate Hlinks.
  reflexivity.
Qed.

Lemma prepare_data_imdb_link_types_witness :
  prepare_data (mkData "imdb" None None (Some [LinkId 5; LinkId 1]) None None None None)
    (sample_world [])
  = (Raised (TypeError "'dict' object is not callable"), sample_world []).
Proof. apply prepare_data_imdb_link_types; reflexivity. Defined.

(** X16.  A data set of a kind other than imdb, ba or full makes
    [prepare_data] print the error of [descr_data] and exit with status 1
    before anything else is printed or written; the error branch of
    [prepare_data] itself is never reached. *)
Theorem prepare_data_unsupported_kind (data : Data) (w : world) :
  d_kind data <> "imdb" -> d_kind data <> "ba" -> d_kind data <> "full" ->
  prepare_data data w
  = (Exited 1,
     add_events w [Stdout ("Error: unsupported data kind " +:+ d_kind data +:+ nl)]).
Proof.
  intros H1 H2 H3. unfold prepare_data.
  erewrite bind_exited; [reflexivity |].
  unfold descr_data.
  apply String.eqb_neq in H1, H2, H3. rewrite H1, H2, H3.
  erewrite bind_exited; [reflexivity |].
  erewrite bind_done by reflexivity.
  unfold exit. now rewrite append_assoc.
Qed.

Lemma prepare_data_unsupported_kind_witness :
  prepare_data (mkData "grid" (Some 4) None None None None None None) (sample_world [])
  = (Exited 1,
     add_events (sample_world [])
       [Stdout ("Error: unsupported data kind "
                +:+ d_kind (mkData "grid" (Some 4) None None None None None None) +:+ nl)]).
Proof. apply prepare_data_unsupported_kind; discriminate. Defined.

End DataFacts.

(** ** Reading the timing line *)

Section ParseFacts.
Import Py.

Lemma length_append (a b : string) :
  String.length (a +:+ b) = (String.length a + String.length b)%nat.
Proof.
  induction a as [|c a IH]; [reflexivity |].
  rewrite append_cons. cbn [String.length]. now rewrite IH.
Qed.

Lemma drop_append (a b : string) : drop (String.length a) (a +:+ b) = b.
Proof. induction a as [|c a IH]; [reflexivity | now rewrite append_cons]. Qed.

Lemma take_append (a b : string) : take (String.length a) (a +:+ b) = a.
Proof.
  induction a as [|c a IH]; [reflexivity |].
  rewrite append_cons. cbn [String.length take]. now rewrite IH.
Qed.

(** Whether a pattern starts a text is decided by as many characters as the
    pattern has. *)
Lemma startswith_window (p : string) :
  forall a b : string,
    (String.length p <= String.length a)%nat ->
    startswith (a +:+ b) p = startswith a p.
Proof.
  induction p as [|x p IH]; intros a b Hlen.
  - transitivity true; [destruct (a +:+ b) | destruct a]; reflexivity.
  - destruct a as [|y a]; [cbn in Hlen; lia |].
    rewrite append_cons. cbn [startswith].
    destruct (Ascii.eqb x y); [| reflexivity].
    apply IH. cbn in Hlen. lia.
Qed.

Lemma startswith_self (p t : string) : startswith (p +:+ t) p = true.
Proof.
  induction p as [|c p IH]; [now destruct t |].
  rewrite append_cons. cbn [startswith]. now rewrite Ascii.eqb_refl.
Qed.

Lemma find_at_here (off : Z) (p s : string) :
  startswith s p = true -> find_at off p s = off.
Proof.
  intros H. destruct s; [rewrite find_at_nil | rewrite find_at_cons]; now rewrite H.
Qed.

(** A pattern that does not occur in [pre] extended by all but the last of
    its characters first occurs, in [pre] extended by the pattern, right
    after [pre]. *)
Lemma find_at_first (p_init : string) (p_last : ascii) (rest : string) :
  forall (pre : string) (off : Z),
    contains (p_init +:+ String p_last EmptyString) (pre +:+ p_init) = false ->
    find_at off (p_init +:+ String p_last EmptyString)
      (pre +:+ (p_init +:+ String p_last EmptyString) +:+ rest)
    = off + len pre.
Proof.
  set (p := p_init +:+ String p_last EmptyString).
  pose proof (startswith_self p) as Hhere.
  induction pre as [|c pre IH]; intros off Hno.
  - rewrite append_nil_l, find_at_here by apply Hhere.
    unfold len. cbn [String.length]. lia.
  - rewrite append_cons in *. rewrite contains_cons in Hno.
    apply orb_false_iff in Hno as [Hc Hno].
    rewrite find_at_cons.
    replace (startswith (String c (pre +:+ p +:+ rest)) p) with false.
    + rewrite IH by assumption. unfold len. cbn [String.length]. lia.
    + rewrite <- Hc, <- !append_cons.
      replace (String c pre +:+ p +:+ rest)
        with ((String c pre +:+ p_init) +:+ (String p_last EmptyString +:+ rest)).
      * symmetry. apply startswith_window.
        unfold p. rewrite !length_append. cbn [String.length]. lia.
      * unfold p. now rewrite !append_assoc.
Qed.

Lemma no_space_cons (c : ascii) (s : string) :
  contains " " (String c s) = false -> c <> " "%char /\ contains " " s = false.
Proof.
  rewrite contains_cons. intros H. apply orb_false_iff in H as [Hc Hs].
  split; [| assumption]. intros ->. cbn [startswith] in Hc.
  rewrite Ascii.eqb_refl in Hc. destruct s; discriminate Hc.
Qed.

Lemma find_at_after_number (num rest : string) :
  forall off : Z,
    contains " " num = false ->
    find_at off " ms" (num +:+ " ms" +:+ rest) = off + len num.
Proof.
  induction num as [|c num IH]; intros off Hno.
  - rewrite append_nil_l, find_at_here by apply startswith_self.
    unfold len. cbn [String.length]. lia.
  - apply no_space_cons in Hno as [Hc Hno].
    rewrite append_cons, find_at_cons. cbn [startswith].
    destruct (Ascii.eqb_spec " " c) as [E|_]; [congruence |].
    rewrite IH by assumption. unfold len. cbn [String.length]. lia.
Qed.

(** X17.  When the output has no timeout message, [parse_psql_output] reads
    the number that stands between the first "Time: " and the " ms" after
    it, with a comma taken for the decimal point; whatever comes before the
    timing line and after the unit has no part in the result. *)
Theorem parse_psql_output_timing (pre num post : string) :
  contains PSQL_TIMEOUT_MSG (pre +:+ "Time: " +:+ num +:+ " ms" +:+ post) = false ->
  contains "Time: " (pre +:+ "Time:") = false ->
  contains " " num = false ->
  parse_psql_output (pre +:+ "Time: " +:+ num +:+ " ms" +:+ post)
  = float (replace_char "," "." num).
Proof.
  intros Hto Hpre Hnum. unfold parse_psql_output. rewrite Hto.
  set (s := pre +:+ "Time: " +:+ num +:+ " ms" +:+ post).
  assert (Hstart : find_at 0 "Time: " s = len pre).
  { unfold s.
    exact (eq_trans (find_at_first "Time:" " " (num +:+ " ms" +:+ post) pre 0 Hpre)
                    (Z.add_0_l _)). }
  rewrite Hstart.
  assert (Hs : s = (pre +:+ "Time: ") +:+ (num +:+ " ms" +:+ post)).
  { unfold s. now rewrite append_assoc. }
  assert (Hlen : len pre + len "Time: " = len (pre +:+ "Time: ")).
  { unfold len. rewrite length_append. lia. }
  assert (Hend : find " ms" s (len pre + len "Time: ")
                 = len (pre +:+ "Time: ") + len num).
  { unfold find. rewrite Hlen.
    destruct (Z.ltb_spec (len s) (len (pre +:+ "Time: "))) as [Hlt|_].
    - rewrite Hs in Hlt. unfold len in Hlt. rewrite length_append in Hlt. lia.
    - unfold len at 2. rewrite Nat2Z.id, Hs, drop_append.
      now apply find_at_after_number. }
  rewrite Hend. f_equal. f_equal.
  unfold slice, clamp. rewrite Hlen.
  assert (Hall : len s = len (pre +:+ "Time: ") + len num + len (" ms" +:+ post)).
  { rewrite Hs. unfold len. rewrite !length_append. lia. }
  assert (0 <= len (pre +:+ "Time: ")) by (unfold len; lia).
  assert (0 <= len num) by (unfold len; lia).
  assert (0 <= len (" ms" +:+ post)) by (unfold len; lia).
  destruct (Z.ltb_spec (len (pre +:+ "Time: ")) 0); [lia |].
  destruct (Z.ltb_spec (len (pre +:+ "Time: ") + len num) 0); [lia |].
  replace (Z.max 0 (Z.min (len (pre +:+ "Time: ")) (len s)))
    with (len (pre +:+ "Time: ")) by lia.
  replace (Z.max 0 (Z.min (len (pre +:+ "Time: ") + len num) (len s)))
    with (len (pre +:+ "Time: ") + len num) by lia.
  replace (len (pre +:+ "Time: ") + len num - len (pre +:+ "Time: "))
    with (len num) by lia.
  unfold len. rewrite !Nat2Z.id, Hs, drop_append. apply take_append.
Qed.

Lemma parse_psql_output_timing_witness :
  parse_psql_output (("Timing is on." +:+ nl) +:+ "Time: " +:+ "1146,152" +:+ " ms"
                     +:+ (" (00:01.146)" +:+ nl))
  = float (replace_char "," "." "1146,152").
Proof. apply parse_psql_output_timing; reflexivity. Defined.

End ParseFacts.

(** ** The report line *)

Section ReportFacts.
Import Py.

Lemma report_fold_lookup (data : Data) (labels : list string) :
  forall (line : gmap string cell) (l : string),
    for_each labels line (fun label line =>
      match data_get data label with
      | Some v => <[label := v]> line
      | None => line
      end) !! l
    = match data_get data l with
      | Some v => if decide (l ∈ labels) then Some v else line !! l
      | None => line !! l
      end.
Proof.
  unfold for_each.
  induction labels as [|x labels IH]; intros line l; cbn [fold_left].
  - destruct (data_get data l); [| reflexivity].
    destruct (decide (l ∈ [])) as [Hin|_]; [| reflexivity].
    now apply elem_of_nil in Hin.
  - rewrite IH. destruct (data_get data l) as [v|] eqn:El.
    + destruct (decide (l ∈ labels)) as [Hin|Hout].
      * rewrite decide_True by (now right). reflexivity.
      * destruct (decide (x = l)) as [->|Hne].
        -- rewrite El, lookup_insert_eq. now rewrite decide_True by left.
        -- rewrite decide_False by (rewrite elem_of_cons; intros [?|?]; congruence).
           destruct (data_get data x); [| reflexivity].
           now rewrite lookup_insert_ne.
    + destruct (decide (x = l)) as [->|Hne]; [now rewrite El |].
      destruct (data_get data x); [| reflexivity].
      now rewrite lookup_insert_ne.
Qed.

(** X18.  In the line a report row starts from, the values of the data set
    win: 'runs' and 'timeout' are those of the experiment only when the data
    dictionary has no such key.  The other columns of the header base are
    there exactly when the data dictionary has them, and the line has no
    other key. *)
Theorem start_report_line_cells (data : Data) (timeout runs : Z) :
  let line := start_report_line data timeout runs in
  line !! "runs" = Some (CInt (default runs (d_runs data)))
  /\ line !! "timeout" = Some (CInt (default timeout (d_timeout data)))
  /\ (forall label : string,
        label ∈ ["kind"; "n"; "m0"; "m"; "indexed"] -> line !! label = data_get data label)
  /\ (forall label : string, label ∉ _header_base -> line !! label = None).
Proof.
  intros line. subst line. unfold start_report_line.
  assert (Hbase : forall (a b : cell) (l : string),
            l <> "runs" -> l <> "timeout" ->
            ({[ "runs" := a; "timeout" := b ]} : gmap string cell) !! l = None).
  { intros a b l H1 H2. rewrite lookup_insert_ne by congruence.
    now apply lookup_singleton_ne. }
  repeat split.
  - rewrite report_fold_lookup. cbn [data_get String.eqb Ascii.eqb Bool.eqb].
    now destruct (d_runs data).
  - rewrite report_fold_lookup. cbn [data_get String.eqb Ascii.eqb Bool.eqb].
    now destruct (d_timeout data).
  - intros label Hin. rewrite report_fold_lookup.
    assert (label ∈ _header_base /\ label <> "runs" /\ label <> "timeout")
      as (Hhead & H1 & H2).
    { repeat (apply elem_of_cons in Hin as [->|Hin]);
        [repeat split; [repeat constructor | discriminate | discriminate]..|].
      now apply elem_of_nil in Hin. }
    destruct (data_get data label) eqn:E.
    + now rewrite decide_True.
    + now apply Hbase.
  - intros label Hout. rewrite report_fold_lookup.
    assert (label <> "runs" /\ label <> "timeout") as [H1 H2].
    { split; intros ->; apply Hout; repeat constructor. }
    destruct (data_get data label).
    + rewrite decide_False by assumption. now apply Hbase.
    + now apply Hbase.
Qed.

End ReportFacts.

(** ** What touches the database and the report *)

Section QuietFacts.
Import Py.

Context {X : Type} (f : event -> list X).

Lemma keeps_ret {A} (a : A) : keeps f (ret a).
Proof. now intros w. Qed.

Lemma keeps_raise {A} (e : exn) : keeps f (@raise A e).
Proof. now intros w. Qed.

Lemma keeps_exit {A} (status : Z) : keeps f (@exit A status).
Proof. now intros w. Qed.

Lemma keeps_lift {A} (r : exn + A) : keeps f (lift r).
Proof. destruct r; [apply keeps_raise | apply keeps_ret]. Qed.

Lemma keeps_bind {A B} (c : M A) (k : A -> M B) :
  keeps f c -> (forall a, keeps f (k a)) -> keeps f (bind c k).
Proof.
  intros Hc Hk w. unfold bind. specialize (Hc w).
  destruct (c w) as [[a|e|status] w1]; cbn [snd] in *; [| assumption..].
  now rewrite Hk.
Qed.

Lemma keeps_when (b : bool) (c : M unit) : keeps f c -> keeps f (when b c).
Proof. destruct b; [trivial | intros _; apply keeps_ret]. Qed.

Lemma keeps_emit (e : event) : f e = [] -> keeps f (emit e).
Proof.
  intros He w. unfold emit, add_events. cbn [snd w_trace].
  rewrite flat_map_app. cbn [flat_map]. rewrite He. now rewrite !app_nil_r.
Qed.

Lemma keeps_open_w (file : string) : keeps f (open_w file).
Proof. now intros w. Qed.

Lemma keeps_write (file text : string) : keeps f (write file text).
Proof. now intros w. Qed.

Lemma keeps_graph (n m0 : Z) : keeps f (barabasi_albert_graph n m0).
Proof. now intros w. Qed.

Lemma keeps_fold_M {A S} (items : list A) (body : A -> S -> M S) :
  (forall x s, keeps f (body x s)) -> forall init, keeps f (fold_M items init body).
Proof.
  intros Hbody. induction items as [|x items IH]; intros init; cbn [fold_M].
  - apply keeps_ret.
  - apply keeps_bind; [apply Hbody | intros s; apply IH].
Qed.

End QuietFacts.

Ltac keeps_step :=
  lazymatch goal with
  | |- keeps _ (bind _ _) => apply keeps_bind; [| intros ?]
  | |- keeps _ (when _ _) => apply keeps_when
  | |- keeps _ (ret _) => apply keeps_ret
  | |- keeps _ (raise _) => apply keeps_raise
  | |- keeps _ (exit _) => apply keeps_exit
  | |- keeps _ (lift _) => apply keeps_lift
  | |- keeps _ (print _) => apply keeps_emit; reflexivity
  | |- keeps _ (print_end _ _) => apply keeps_emit; reflexivity
  | |- keeps _ flush_stdout => apply keeps_emit; reflexivity
  | |- keeps _ (emit _) => apply keeps_emit; reflexivity
  | |- keeps _ (open_w _) => apply keeps_open_w
  | |- keeps _ (write _ _) => apply keeps_write
  | |- keeps _ (barabasi_albert_graph _ _) => apply keeps_graph
  | |- keeps _ (fold_M _ _ _) => apply keeps_fold_M; intros ? ?
  | |- keeps _ (if ?b then _ else _) => destruct b
  end.

Section QuietProgram.
Import Py.

Context {X : Type} (f : event -> list X).
Hypothesis f_stdout : forall text, f (Stdout text) = [].
Hypothesis f_flush : f StdoutFlush = [].

Lemma keeps_print (text : string) : keeps f (print text).
Proof. apply keeps_emit, f_stdout. Qed.

Lemma keeps_flush : keeps f flush_stdout.
Proof. apply keeps_emit, f_flush. Qed.

Lemma keeps_descr_data (data : Data) : keeps f (descr_data data).
Proof.
  unfold descr_data.
  repeat first [apply keeps_print | apply keeps_flush | keeps_step].
Qed.

Lemma keeps_prepare_data (data : Data) : keeps f (prepare_data data).
Proof.
  unfold prepare_data, prepare_imdb_data, generate_barabasi_albert_data,
    generate_full_graph, write_copy_script, write_indexes.
  apply keeps_bind; [apply keeps_descr_data | intros descr].
  repeat first [apply keeps_print | apply keeps_flush | keeps_step].
Qed.

Lemma keeps_prepare_query (query : Query) (timeout : option Z) :
  keeps f (prepare_query query timeout).
Proof.
  unfold prepare_query, construct_query.
  repeat first [apply keeps_print | apply keeps_flush | keeps_step].
Qed.

End QuietProgram.

Section QuietReport.
Import Py.

(** What leaves the report alone: every step but [writerow]. *)
Context {X : Type} (f : event -> list X).
Hypothesis f_stdout : forall text, f (Stdout text) = [].
Hypothesis f_flush : f StdoutFlush = [].
Hypothesis f_result : forall fmt r ending, f (StdoutResult fmt r ending) = [].
Hypothesis f_shell : forall command output, f (Shell command output) = [].

Lemma keeps_postgres (command : string) (params : pg_params) :
  keeps f (postgres command params).
Proof.
  unfold postgres. apply keeps_bind.
  - intros w. unfold popen_read. cbn [snd w_trace].
    rewrite flat_map_app. cbn [flat_map]. now rewrite f_shell, !app_nil_r.
  - intros output.
    repeat first [apply keeps_print; assumption | keeps_step].
Qed.

Lemma keeps_load_data (quiet : bool) : keeps f (load_data quiet).
Proof.
  unfold load_data.
  repeat first [apply keeps_postgres | apply keeps_print; assumption
               | apply keeps_emit; apply f_stdout
               | apply keeps_flush; assumption | keeps_step].
Qed.

Lemma keeps_measure_query_run : keeps f measure_query_run.
Proof.
  unfold measure_query_run.
  repeat first [apply keeps_postgres | apply keeps_emit; apply f_result
               | apply keeps_flush; assumption | keeps_step].
Qed.

Lemma keeps_measure_loop (n : nat) (hard_timeout : bool) :
  forall results, keeps f (measure_loop n hard_timeout results).
Proof.
  induction n as [|n IH]; intros results; cbn [measure_loop].
  - apply keeps_ret.
  - apply keeps_bind; [apply keeps_measure_query_run | intros r].
    destruct (is_timeout r && hard_timeout); [apply keeps_ret | apply IH].
Qed.

Lemma keeps_run_query_experiment (data : Data) (query : Query) (runs : Z)
    (hard_timeout : bool) :
  keeps f (run_query_experiment data query runs hard_timeout).
Proof.
  unfold run_query_experiment, collect_results.
  repeat first [apply keeps_measure_loop | apply keeps_emit; apply f_result
               | apply keeps_emit; apply f_stdout
               | apply keeps_flush; assumption | keeps_step].
Qed.

End QuietReport.

Section WholeRunFacts.
Import Py.

(** X19.  Preparing the data and preparing the query script never run a
    shell command and never write a report row, whatever the data set, the
    query and the state of the world, and however they end. *)
Theorem preparing_runs_nothing (data : Data) (query : Query) (timeout : option Z)
    (w : world) :
  shell_log (w_trace (snd (prepare_data data w))) = shell_log (w_trace w)
  /\ csv_rows (w_trace (snd (prepare_data data w))) = csv_rows (w_trace w)
  /\ shell_log (w_trace (snd (prepare_query query timeout w))) = shell_log (w_trace w)
  /\ csv_rows (w_trace (snd (prepare_query query timeout w))) = csv_rows (w_trace w).
Proof.
  repeat split.
  - now apply (keeps_prepare_data shell_of).
  - now apply (keeps_prepare_data row_of).
  - now apply (keeps_prepare_query shell_of).
  - now apply (keeps_prepare_query row_of).
Qed.

Lemma keeps_commands {A} (c : M A) :
  keeps shell_of c -> forall w, commands (w_trace (snd (c w))) = commands (w_trace w).
Proof. intros H w. unfold commands, shell_log. exact (f_equal (map fst) (H w)). Qed.

Lemma csv_rows_add_events (w : world) (new : list event) :
  csv_rows (w_trace (add_events w new)) = csv_rows (w_trace w) ++ csv_rows new.
Proof. unfold csv_rows, add_events. cbn [w_trace]. apply flat_map_app. Qed.

Lemma bind_done_inv {A B} (c : M A) (k : A -> M B) (w w' : world) (b : B) :
  bind c k w = (Done b, w') ->
  exists (a : A) (w1 : world), c w = (Done a, w1) /\ k a w1 = (Done b, w').
Proof.
  unfold bind. destruct (c w) as [[a|e|status] w1]; try discriminate.
  intros H. now exists a, w1.
Qed.

Lemma load_data_done (quiet : bool) (w w' : world) :
  load_data quiet w = (Done tt, w') ->
  commands (w_trace w')
  = commands (w_trace w) ++ [dropdb_command; createdb_command; load_command].
Proof.
  intros H. destruct (load_data_steps quiet w) as (Hc & Hout & _).
  rewrite H in Hc, Hout. cbn [fst snd] in *.
  destruct (error_reported (hd EmptyString (w_shell w))); [discriminate |].
  destruct (error_reported (hd EmptyString (tl (w_shell w)))); [discriminate |].
  exact Hc.
Qed.

(** The loop over the queries of one data set. *)
Lemma queries_loop_done (data : Data) (timeout runs : Z) (hard_timeout : bool)
    (queries : list Query) :
  forall (line line' : gmap string cell) (w w' : world),
    fold_M queries line (fun query report_line =>
      prepare_query query (Some timeout);;
      let* result := run_query_experiment data query runs hard_timeout in
      ret (<[query_descr query := CResult result]> report_line)) w
    = (Done line', w') ->
    exists k : nat,
      (k <= length queries * Z.to_nat runs)%nat
      /\ commands (w_trace w') = commands (w_trace w) ++ replicate k query_command
      /\ csv_rows (w_trace w') = csv_rows (w_trace w)
      /\ dom line' ⊆ dom line ∪ list_to_set (map query_descr queries).
Proof.
  induction queries as [|query queries IH]; intros line line' w w' H.
  - cbn in H. injection H as <- <-. exists O.
    rewrite app_nil_r. repeat split; [lia | set_solver].
  - cbn [fold_M] in H.
    apply bind_done_inv in H as (line1 & w1 & Hbody & Hrest).
    apply bind_done_inv in Hbody as ([] & w2 & Hprep & Hbody).
    apply bind_done_inv in Hbody as (result & w3 & Hrun & Hret).
    injection Hret as <- <-.
    destruct (IH _ _ _ _ Hrest) as (k & Hk & Hc & Hr & Hdom).
    destruct (run_query_experiment_steps data query runs hard_timeout w2)
      as (k1 & Hk1 & Hc1 & _).
    rewrite Hrun in Hc1. cbn [snd] in Hc1.
    assert (Hs2 : keeps shell_of (prepare_query query (Some timeout)))
      by (apply keeps_prepare_query; intros; reflexivity).
    assert (Hr2 : keeps row_of (prepare_query query (Some timeout)))
      by (apply keeps_prepare_query; intros; reflexivity).
    pose proof (keeps_commands _ Hs2 w) as Hs2'. clear Hs2. rename Hs2' into Hs2.
    specialize (Hr2 w).
    rewrite Hprep in Hs2, Hr2. cbn [snd] in Hs2, Hr2.
    assert (Hr3 : keeps row_of (run_query_experiment data query runs hard_timeout))
      by (apply keeps_run_query_experiment; intros; reflexivity).
    specialize (Hr3 w2). rewrite Hrun in Hr3. cbn [snd] in Hr3.
    exists (k1 + k)%nat. repeat split.
    + cbn [length]. lia.
    + rewrite Hc, Hc1, Hs2. now rewrite replicate_add, List.app_assoc.
    + rewrite Hr. unfold csv_rows. now rewrite Hr3, Hr2.
    + rewrite dom_insert in Hdom. cbn [map]. clear -Hdom. set_solver.
Qed.

(** What one data set adds when all goes well. *)
Lemma dataset_done (queries : list Query) (timeout runs : Z) (hard_timeout : bool)
    (report_f : string) (report_header : list string) (data : Data) (w w' : world) :
  (let* data := prepare_data data in
   load_data false;;
   let report_line := start_report_line data timeout runs in
   let* report_line := fold_M queries report_line (fun query report_line =>
     prepare_query query (Some timeout);;
     let* result := run_query_experiment data query runs hard_timeout in
     ret (<[query_descr query := CResult result]> report_line)) in
   writerow report_f report_header report_line;;
   emit (FileFlush report_f)) w = (Done tt, w') ->
  exists (k : nat) (row : list (option cell)),
    (k <= length queries * Z.to_nat runs)%nat
    /\ commands (w_trace w') = commands (w_trace w) ++ load_then_queries k
    /\ csv_rows (w_trace w') = csv_rows (w_trace w) ++ [row]
    /\ length row = length report_header.
Proof.
  intros H.
  apply bind_done_inv in H as (data1 & w1 & Hprep & H).
  apply bind_done_inv in H as ([] & w2 & Hload & H).
  apply bind_done_inv in H as (line & w3 & Hloop & H).
  apply bind_done_inv in H as ([] & w4 & Hrow & Hflush).
  injection Hflush as <-.
  assert (Hs1 : commands (w_trace w1) = commands (w_trace w)).
  { assert (Hk : keeps shell_of (prepare_data data))
      by (apply keeps_prepare_data; intros; reflexivity).
    pose proof (keeps_commands _ Hk w) as Hc. now rewrite Hprep in Hc. }
  assert (Hr1 : csv_rows (w_trace w1) = csv_rows (w_trace w)).
  { assert (Hk : keeps row_of (prepare_data data))
      by (apply keeps_prepare_data; intros; reflexivity).
    specialize (Hk w). now rewrite Hprep in Hk. }
  pose proof (load_data_done _ _ _ Hload) as Hs2.
  assert (Hr2 : csv_rows (w_trace w2) = csv_rows (w_trace w1)).
  { assert (Hk : keeps row_of (load_data false))
      by (apply keeps_load_data; intros; reflexivity).
    specialize (Hk w1). now rewrite Hload in Hk. }
  destruct (queries_loop_done _ _ _ _ _ _ _ _ _ Hloop) as (k & Hk & Hs3 & Hr3 & _).
  unfold writerow in Hrow. destruct (bool_decide _) in Hrow; [| discriminate].
  injection Hrow as <-.
  exists k, (map (fun f => line !! f) report_header).
  split; [assumption |].
  rewrite !commands_add_events, !csv_rows_add_events.
  rewrite Hs3, Hs2, Hs1, Hr3, Hr2, Hr1, length_map.
  unfold load_then_queries. cbn [commands shell_log csv_rows flat_map map row_of app].
  now rewrite !app_nil_r, <- !List.app_assoc.
Qed.

Lemma datasets_done (queries : list Query) (timeout runs : Z) (hard_timeout : bool)
    (report_f : string) (report_header : list string) (datas : list Data) :
  forall w w' : world,
    for_M datas (fun data =>
      let* data := prepare_data data in
      load_data false;;
      let report_line := start_report_line data timeout runs in
      let* report_line := fold_M queries report_line (fun query report_line =>
        prepare_query query (Some timeout);;
        let* result := run_query_experiment data query runs hard_timeout in
        ret (<[query_descr query := CResult result]> report_line)) in
      writerow report_f report_header report_line;;
      emit (FileFlush report_f)) w = (Done tt, w') ->
    exists (ks : list nat) (rows : list (list (option cell))),
      length ks = length datas
      /\ length rows = length datas
      /\ Forall (fun k => (k <= length queries * Z.to_nat runs)%nat) ks
      /\ Forall (fun row => length row = length report_header) rows
      /\ commands (w_trace w')
         = commands (w_trace w) ++ List.concat (map load_then_queries ks)
      /\ csv_rows (w_trace w') = csv_rows (w_trace w) ++ rows.
Proof.
  unfold for_M.
  induction datas as [|data datas IH]; intros w w' H.
  - cbn in H. injection H as <-. exists [], [].
    rewrite !app_nil_r. now repeat split.
  - cbn [fold_M] in H. apply bind_done_inv in H as ([] & w1 & Hdata & Hrest).
    apply dataset_done in Hdata as (k & row & Hk & Hc & Hr & Hw).
    destruct (IH _ _ Hrest) as (ks & rows & Hlk & Hlr & Hks & Hrows & Hcs & Hrs).
    exists (k :: ks), (row :: rows). cbn [length map List.concat].
    repeat split; try (now f_equal); try (now constructor).
    + now rewrite Hcs, Hc, <- !List.app_assoc.
    + now rewrite Hrs, Hr, <- !List.app_assoc.
Qed.



(** X21.  In a run of [run_experiments] that comes to its end, the report
    gets exactly one row for each data set, and every row has one cell for
    each column of the header. *)
Theorem run_experiments_rows (datas : list Data) (queries : list Query)
    (params : Params) (w : world) :
  fst (run_experiments datas queries params w) = Done tt ->
  exists rows : list (list (option cell)),
    length rows = length datas
    /\ Forall (fun row => length row = length (make_report_header queries)) rows
    /\ csv_rows (w_trace (snd (run_experiments datas queries params w)))
       = csv_rows (w_trace w) ++ rows.
Proof.
  intros H.
  destruct (run_experiments datas queries params w) as [o w'] eqn:E.
  cbn [fst snd] in *. subst o. unfold run_experiments in E.
  apply bind_done_inv in E as (now & w1 & Hnow & E).
  apply bind_done_inv in E as ([] & w2 & Hp1 & E).
  apply bind_done_inv in E as ([] & w3 & Hp2 & E).
  apply bind_done_inv in E as ([] & w4 & Hopen & E).
  apply bind_done_inv in E as ([] & w5 & Hhead & E).
  apply datasets_done in E as (ks & rows & _ & Hlr & _ & Hrows & _ & Hr).
  exists rows. repeat split; [assumption.. |].
  rewrite Hr. f_equal.
  injection Hnow as _ <-. injection Hopen as <-. injection Hhead as <-.
  unfold csv_rows, add_events, open_w. cbn [w_trace].
  rewrite flat_map_app. cbn [flat_map row_of app]. rewrite app_nil_r.
  assert (Hq : forall b text, keeps row_of (when b (print text))).
  { intros b text. apply keeps_when, keeps_emit. reflexivity. }
  match type of Hp2 with
  | when ?b (print ?t) _ = _ => pose proof (Hq b t w2) as H2
  end.
  match type of Hp1 with
  | when ?b (print ?t) _ = _ => pose proof (Hq b t w) as H1
  end.
  rewrite Hp2 in H2. rewrite Hp1 in H1. cbn [snd] in *. now rewrite H2, H1.
Qed.

Lemma run_experiments_rows_witness :
  exists rows : list (list (option cell)),
    length rows = length [sample_data]
    /\ Forall (fun row => length row = length (make_report_header [sample_query])) rows
    /\ csv_rows (w_trace (snd (run_experiments [sample_data] [sample_query]
                                 sample_params sample_run_world)))
       = csv_rows (w_trace sample_run_world)
         ++ rows.
Proof. apply run_experiments_rows. vm_compute. reflexivity. Defined.

Lemma start_report_line_dom (data : Data) (timeout runs : Z) :
  dom (start_report_line data timeout runs) ⊆ list_to_set _header_base.
Proof.
  intros l Hl. apply elem_of_dom in Hl as [v Hv].
  apply elem_of_list_to_set.
  destruct (decide (l ∈ _header_base)) as [Hin|Hout]; [assumption | exfalso].
  unfold start_report_line in Hv. rewrite report_fold_lookup in Hv.
  assert (l <> "runs" /\ l <> "timeout") as [H1 H2].
  { split; intros ->; apply Hout; repeat constructor. }
  assert (Hbase : ({[ "runs" := CInt runs; "timeout" := CInt timeout ]}
                     : gmap string cell) !! l = None).
  { rewrite lookup_insert_ne by congruence. now apply lookup_singleton_ne. }
  destruct (data_get data l); [rewrite decide_False in Hv by assumption |];
    congruence.
Qed.

(** X25.  The line that the loop over the queries hands to [writerow] has
    no key outside the report header, so that [writerow] never refuses it:
    it writes one row, with one cell for each column of the header. *)
Theorem report_line_fits_header (data : Data) (timeout runs : Z) (hard_timeout : bool)
    (queries : list Query) (report_f : string) (line : gmap string cell)
    (w w' : world) :
  fold_M queries (start_report_line data timeout runs) (fun query report_line =>
    prepare_query query (Some timeout);;
    let* result := run_query_experiment data query runs hard_timeout in
    ret (<[query_descr query := CResult result]> report_line)) w
  = (Done line, w') ->
  writerow report_f (make_report_header queries) line w'
  = (Done tt,
     add_events w'
       [CsvRow report_f (map (fun f => line !! f) (make_report_header queries))]).
Proof.
  intros H. apply queries_loop_done in H as (_ & _ & _ & _ & Hdom).
  unfold writerow. rewrite bool_decide_true; [reflexivity |].
  pose proof (start_report_line_dom data timeout runs) as Hstart.
  unfold make_report_header. rewrite list_to_set_app. clear -Hdom Hstart. set_solver.
Qed.

Lemma report_line_fits_header_witness :
  writerow "results/report.csv" (make_report_header [sample_query])
    (<[query_descr sample_query := CResult (Time 2)]>
       (start_report_line sample_data 1800000 2))
    (snd (fold_M [sample_query] (start_report_line sample_data 1800000 2)
            (fun query report_line =>
               prepare_query query (Some 1800000);;
               let* result := run_query_experiment sample_data query 2 true in
               ret (<[query_descr query := CResult result]> report_line))
            (sample_world [timed_output "2.000"; timed_output "1.000"])))
  = (Done tt,
     add_events
       (snd (fold_M [sample_query] (start_report_line sample_data 1800000 2)
               (fun query report_line =>
                  prepare_query query (Some 1800000);;
                  let* result := run_query_experiment sample_data query 2 true in
                  ret (<[query_descr query := CResult result]> report_line))
               (sample_world [timed_output "2.000"; timed_output "1.000"])))
       [CsvRow "results/report.csv"
          (map (fun f => (<[query_descr sample_query := CResult (Time 2)]>
                            (start_report_line sample_data 1800000 2)) !! f)
               (make_report_header [sample_query]))]).
Proof.
  apply (report_line_fits_header sample_data 1800000 2 true [sample_query]
           "results/report.csv" _
           (sample_world [timed_output "2.000"; timed_output "1.000"])).
  vm_compute. reflexivity.
Defined.

End WholeRunFacts.

(** ** More about the generators *)

Section GeneratorMoreFacts.
Import Py.

(** X22.  Of the three generators that the constructor table leaves out,
    the forward variants for TQ1 and TQ2 end their text with the statement
    separator, and the backward variant for TQ3, like the forward one, does
    not: its text ends with the threshold. *)
Theorem unlisted_generators_terminator (length threshold : Z) :
  endswith (prep_path_wind_query_forward length threshold) ";" = true
  /\ endswith (prep_neig_wind_query_forward length threshold) ";" = true
  /\ endswith (prep_conn_wind_query_backward length threshold) ";" = false.
Proof.
  repeat split.
  - unfold prep_path_wind_query_forward. cbv zeta.
    rewrite <- !append_assoc. apply endswith_app.
  - unfold prep_neig_wind_query_forward. cbv zeta. now apply endswith_app_r.
  - unfold prep_conn_wind_query_backward. cbv zeta.
    rewrite <- !append_assoc. apply endswith_number.
Qed.

Lemma for_each_nil {A B} (init : B) (body : A -> B -> B) : for_each [] init body = init.
Proof. reflexivity. Qed.

(** X23.  The naive generators do not check the length.  With length 1 (no
    join) the PATH query has a WHERE clause without a condition, and with a
    length of 0 or less its FROM clause is empty as well and the selected
    column is that of an alias that does not exist. *)
Theorem prep_path_naiv_query_without_joins (threshold : Z) :
  prep_path_naiv_query 1 threshold
  = "SELECT DISTINCT R0.A, R0.B" +:+ nl +:+ "FROM R AS R0" +:+ nl +:+ "WHERE " +:+ nl
    +:+ "LIMIT " +:+ fmt_i threshold +:+ ";"
  /\ forall length : Z,
       length <= 0 ->
       prep_path_naiv_query length threshold
       = "SELECT DISTINCT R0.A, R" +:+ fmt_i (length - 1) +:+ ".B" +:+ nl
         +:+ "FROM " +:+ nl +:+ "WHERE " +:+ nl +:+ "LIMIT " +:+ fmt_i threshold +:+ ";".
Proof.
  split.
  - unfold prep_path_naiv_query, from_loop, where_loop. cbv zeta.
    change (range 0 1) with [0]. change (range 0 (1 - 1)) with (@nil Z).
    rewrite for_each_nil. unfold for_each. cbn [fold_left].
    change (0 <? 1 - 1) with false. cbv iota.
    change (fmt_i (1 - 1)) with "0". change (fmt_i 0) with "0".
    now rewrite !append_assoc.
  - intros length Hlen.
    unfold prep_path_naiv_query, from_loop, where_loop. cbv zeta.
    rewrite !range_nil by lia. rewrite !for_each_nil.
    now rewrite !append_assoc.
Qed.

Lemma append_inj_r (a b c : string) : a +:+ b = a +:+ c -> b = c.
Proof.
  induction a as [|x a IH]; [trivial |].
  rewrite !append_cons. intros [= H]. auto.
Qed.

(** X24.  For the classes and methods of the constructor table the column
    key tells the descriptors apart up to the threshold: two descriptors
    with the same key have the same class, the same method and the same
    number of joins. *)
Theorem query_descr_distinct (q1 q2 : Query) :
  q_kind q1 = "TQ1" \/ q_kind q1 = "TQ2" \/ q_kind q1 = "TQ3" ->
  q_kind q2 = "TQ1" \/ q_kind q2 = "TQ2" \/ q_kind q2 = "TQ3" ->
  q_method q1 = "naive" \/ q_method q1 = "windowed" ->
  q_method q2 = "naive" \/ q_method q2 = "windowed" ->
  query_descr q1 = query_descr q2 ->
  q_kind q1 = q_kind q2 /\ q_method q1 = q_method q2 /\ q_k q1 = q_k q2.
Proof.
  destruct q1 as [kind1 method1 k1 t1], q2 as [kind2 method2 k2 t2].
  cbn [q_kind q_method q_k]. unfold query_descr. cbn [q_kind q_method q_k q_threshold].
  intros [-> | [-> | ->]] [-> | [-> | ->]] [-> | ->] [-> | ->] H;
    try (exfalso; vm_compute in H; discriminate H);
    (repeat split; try reflexivity);
    change (slice "naive" 0 4) with "naiv" in H;
    change (slice "windowed" 0 4) with "wind" in H;
    rewrite <- !append_assoc in H; apply append_inj_r in H;
    now apply (inj pretty) in H.
Qed.

Lemma query_descr_distinct_witness :
  q_kind (mkQuery "TQ1" "naive" 3 10) = q_kind (mkQuery "TQ1" "naive" 3 500)
  /\ q_method (mkQuery "TQ1" "naive" 3 10) = q_method (mkQuery "TQ1" "naive" 3 500)
  /\ q_k (mkQuery "TQ1" "naive" 3 10) = q_k (mkQuery "TQ1" "naive" 3 500).
Proof.
  apply query_descr_distinct;
    [left; reflexivity | left; reflexivity | left; reflexivity | left; reflexivity
    | reflexivity].
Defined.

End GeneratorMoreFacts.
